(** * Resume analyzer: the recommendation engine of [recommender.py]

    A shallow embedding of the class [Recommender] and of the two scikit-learn
    routines it calls ([TfidfVectorizer.fit_transform] with its default
    parameters and [cosine_similarity]), followed by the code around it:
    [ResumeParser] ([parser.py]), [NLPProcessor] ([nlp_processor.py]) and the
    upload handler of [main.py], over an abstract record of what their
    libraries answer.

    Numbers.  Python floats are idealised by exact numbers:
    - rationals [Q] where the code only multiplies, adds, divides and compares
      decimal literals and lengths (the weight table, the industry scores,
      the skill importance); these definitions compute;
    - reals [R] where a value comes out of TF-IDF (a logarithm and a square
      root): similarities, relevance and match scores.
    The one place where the code turns a float into an integer,
    [int(weight * 10)], is also evaluated in binary64 arithmetic
    ([Binary64.int_weight_times_ten]) and shown to agree with the rational model.
    A similarity computed in binary64 differs from the real one in its last
    digits: it can exceed 1 by a rounding error and it can change with the
    order in which the terms are summed.  The properties of the methods are
    therefore stated in terms that rounding keeps: whether a similarity is 0
    or positive, which catalog entry it belongs to, and the formula that
    turns it into a score.  None of them bounds a similarity by 1, and none
    equates the scores of two runs; that reordering the tokens leaves the
    exact similarities unchanged is a lemma of the model
    ([get_recommendations_perm]), used only to compare what two runs
    recommend apart from the scores.

    Text.  Strings are byte strings.  [lower] and the tokenizer are Python's
    on ASCII text and treat every other byte as a separator that [lower]
    leaves alone, where Python knows the letters of Unicode; the catalogs are
    ASCII, and a statement that depends on the tokens of the caller's skills
    asks these to be ASCII too ([ascii_only]). *)

From Stdlib Require Import List String Ascii Bool Arith ZArith QArith Qabs.
From Stdlib Require Import Reals Lra Lia Permutation Sorted.
From Stdlib Require Floats.PrimFloat Floats.FloatOps Floats.SpecFloat.
From Stdlib Require Lqa.
Import ListNotations.

Set Implicit Arguments.
Set Warnings "-inexact-float".

(** ** Python built-ins *)

Module Py.

Inductive exn : Type :=
| ValueError        (* TfidfVectorizer: empty vocabulary *)
| ZeroDivisionError (* len(common) / len([]) *)
| IndexError.       (* matrix[0] on an empty result *)

Inductive result (A : Type) : Type :=
| Ok (a : A)
| Raise (e : exn).
Arguments Ok {A} a.
Arguments Raise {A} e.

Definition bind {A B} (m : result A) (k : A -> result B) : result B :=
  match m with
  | Ok a => k a
  | Raise e => Raise e
  end.

(** [for x in l: ...] over a body that may raise *)
Fixpoint mapM {A B} (f : A -> result B) (l : list A) : result (list B) :=
  match l with
  | [] => Ok []
  | x :: l' =>
      bind (f x) (fun y => bind (mapM f l') (fun ys => Ok (y :: ys)))
  end.

(** [d.get(k, default)] on a dict given by its items *)
Fixpoint dict_get {V} (d : list (string * V)) (k : string) (default : V) : V :=
  match d with
  | [] => default
  | (k', v) :: d' => if String.eqb k' k then v else dict_get d' k default
  end.

(** [x in l] for a list (or set) of strings *)
Definition str_in (x : string) (l : list string) : bool :=
  existsb (String.eqb x) l.

Definition lower_char (c : ascii) : ascii :=
  let n := nat_of_ascii c in
  if (65 <=? n) && (n <=? 90) then ascii_of_nat (n + 32) else c.

(** [s.lower()] on ASCII text: the letters A to Z are lowered, every other
    byte is kept *)
Fixpoint lower (s : string) : string :=
  match s with
  | EmptyString => EmptyString
  | String c s' => String (lower_char c) (lower s')
  end.

(** [int(x)]: truncation towards zero *)
Definition int (x : Q) : Z := Z.quot (Qnum x) (Zpos (Qden x)).

(** [round(x)]: nearest integer, halves to the even neighbour *)
Definition round (x : Q) : Z :=
  let n := Qnum x in
  let d := Zpos (Qden x) in
  let f := Z.div n d in
  let r := (2 * (n - f * d))%Z in
  if (r <? d)%Z then f
  else if (d <? r)%Z then (f + 1)%Z
  else if Z.even f then f else (f + 1)%Z.

(** [a < b] on the rational model of floats *)
Definition Qltb (a b : Q) : bool := negb (Qle_bool b a).

(** [max(items, key=...)] on a non-empty sequence: the first item whose key
    is maximal ([best] is replaced only by a strictly greater key) *)
Fixpoint max_from {A} (key : A -> Q) (best : A) (l : list A) : A :=
  match l with
  | [] => best
  | x :: l' => max_from key (if Qltb (key best) (key x) then x else best) l'
  end.

(** [l.sort(key=..., reverse=True)]: stable, descending *)
Fixpoint insert_desc {A} (key : A -> R) (x : A) (l : list A) : list A :=
  match l with
  | [] => [x]
  | y :: l' =>
      if Rlt_dec (key x) (key y) then y :: insert_desc key x l' else x :: l
  end.

Definition sort_desc {A} (key : A -> R) (l : list A) : list A :=
  fold_right (insert_desc key) [] l.

End Py.

Import Py.

Notation "x <- m ;; k" := (Py.bind m (fun x => k))
  (at level 61, m at next level, right associativity).

(** ** Binary64 check of [int(weight * 10)] *)

Module Binary64.

Import PrimFloat FloatOps SpecFloat.

(** [int(f)] for a finite binary64 value *)
Definition float_int (f : float) : Z :=
  match Prim2SF f with
  | S754_finite s m e =>
      let v := match e with
               | Z0 => Zpos m
               | Zpos p => (Zpos m * 2 ^ Zpos p)%Z
               | Zneg p => Z.quot (Zpos m) (2 ^ Zpos p)
               end in
      if s then (- v)%Z else v
  | _ => 0%Z
  end.

Definition int_weight_times_ten (w : float) : Z :=
  float_int (PrimFloat.mul w 10%float).

(** the float literals of [skill_weights] and of the default, each with
    its rational model *)
Definition weight_literals : list (float * Q) :=
  [(1.2%float, 1.2%Q); (1.1%float, 1.1%Q); (1.3%float, 1.3%Q);
   (1.0%float, 1.0%Q)].

End Binary64.

(** ** scikit-learn: [TfidfVectorizer()] and [cosine_similarity] *)

Module Sklearn.

Local Open Scope R_scope.

(** [\w] on ASCII text: a letter, a digit or the underscore; a byte above
    127 is no word character here *)
Definition is_word_char (c : ascii) : bool :=
  let n := nat_of_ascii c in
  ((48 <=? n) && (n <=? 57) || (65 <=? n) && (n <=? 90)
   || (97 <=? n) && (n <=? 122) || (n =? 95))%nat%bool.

(** maximal runs of word characters; [cur] is the run being read *)
Fixpoint word_runs (s cur : string) : list string :=
  match s with
  | EmptyString => [cur]
  | String c s' =>
      if is_word_char c
      then word_runs s' (cur ++ String c EmptyString)
      else cur :: word_runs s' EmptyString
  end.

(** the default analyzer: lowercase, then [token_pattern = \b\w\w+\b]
    (words of two or more characters), no stop words *)
Definition tokenize (doc : string) : list string :=
  filter (fun w => (2 <=? String.length w)%nat)
         (word_runs (lower doc) EmptyString).

Definition tf (t : string) (d : list string) : nat :=
  count_occ string_dec d t.

Definition df (docs : list (list string)) (t : string) : nat :=
  List.length (filter (str_in t) docs).

(** smooth idf: [ln((1 + n) / (1 + df)) + 1] *)
Definition idf (docs : list (list string)) (t : string) : R :=
  ln ((1 + INR (List.length docs)) / (1 + INR (df docs t))) + 1.

Fixpoint dot (u v : list R) : R :=
  match u, v with
  | x :: u', y :: v' => x * y + dot u' v'
  | _, _ => 0
  end.

(** [normalize(v, norm='l2')]; a zero row is left as it is *)
Definition l2_normalize (v : list R) : list R :=
  let n := sqrt (dot v v) in
  if Req_dec_T n 0 then v else map (fun x => x / n) v.

(** the terms of the fitted vocabulary (scikit-learn sorts them; the order
    of the columns does not change a dot product) *)
Definition vocabulary (docs : list (list string)) : list string :=
  nodup string_dec (List.concat docs).

Definition tfidf_row (docs : list (list string)) (d : list string) : list R :=
  l2_normalize (map (fun t => INR (tf t d) * idf docs t) (vocabulary docs)).

(** [TfidfVectorizer().fit_transform(texts)], one dense row per text *)
Definition fit_transform (texts : list string) : result (list (list R)) :=
  let docs := map tokenize texts in
  match vocabulary docs with
  | [] => Raise ValueError
  | _ :: _ => Ok (map (tfidf_row docs) docs)
  end.

(** [cosine_similarity(X, Y)]; an argument without rows is refused *)
Definition cosine_similarity (X Y : list (list R)) : result (list (list R)) :=
  match X, Y with
  | _ :: _, _ :: _ =>
      Ok (map (fun x => map (fun y => dot (l2_normalize x) (l2_normalize y)) Y) X)
  | _, _ => Raise ValueError
  end.

(** [cosine_similarity(m[-1:], m[:-1])[0]] *)
Definition last_against_rest (m : list (list R)) : result (list R) :=
  similarities <-
    cosine_similarity (skipn (List.length m - 1) m) (removelast m) ;;
  match similarities with
  | row :: _ => Ok row
  | [] => Raise IndexError
  end.

(** the unnormalised TF-IDF weight of a term in a document *)
Definition weight (docs : list (list string)) (d : list string) (t : string) : R :=
  INR (tf t d) * idf docs t.

(** the entry of [cosine_similarity] for the rows of two documents [q] and
    [d] of a fitted corpus, in exact arithmetic *)
Definition cosine (docs : list (list string)) (q d : list string) : R :=
  dot (l2_normalize (tfidf_row docs q)) (l2_normalize (tfidf_row docs d)).

End Sklearn.

Import Sklearn.

(** ** The data of [Recommender] *)

Record JobRole : Type := {
  title : string;
  required_skills : list string;
  description : string
}.

Record Course : Type := {
  course_title : string;
  course_skills : list string;
  level : string
}.

(** the attributes set by [__init__]; dicts are kept as their items in
    insertion order, which is the order Python iterates them in *)
Record Recommender : Type := {
  skill_weights : list (string * Q);
  industry_clusters : list (string * list string);
  job_roles : list JobRole;
  courses : list Course
}.

(** [{**job, 'match_score': ..., 'industry_alignment': ...}] *)
Record JobRecommendation : Type := {
  job : JobRole;
  match_score : R;
  industry_alignment : option string
}.

(** [{**course, 'missing_skills': ..., ...}] *)
Record CourseRecommendation : Type := {
  course : Course;
  missing_skills : list string;
  relevance_score : R;
  skill_importance : Q;
  experience_match : bool
}.

(** the dict [analyzed_data]; [None] is an absent key *)
Record AnalyzedData : Type := {
  skills : option (list string);
  experience_level : option string;
  industry_preference : option string
}.

Record Recommendations : Type := {
  job_recommendations : list JobRecommendation;
  course_recommendations : list CourseRecommendation;
  matched_industry : option string
}.

Local Open Scope string_scope.

(** the entries of [self.job_roles] *)
Definition software_engineer : JobRole :=
  {| title := "Software Engineer";
     required_skills := ["Python"; "Java"; "SQL"; "Git"; "Agile"];
     description := "Develop and maintain software applications" |}.

Definition data_scientist : JobRole :=
  {| title := "Data Scientist";
     required_skills := ["Python"; "R"; "Machine Learning"; "SQL"; "Statistics"];
     description := "Analyze complex data sets to drive business decisions" |}.

Definition devops_engineer : JobRole :=
  {| title := "DevOps Engineer";
     required_skills := ["Docker"; "Kubernetes"; "CI/CD"; "AWS"; "Linux"];
     description := "Implement and maintain deployment infrastructure" |}.

(** the entries of [self.courses] *)
Definition python_masterclass : Course :=
  {| course_title := "Python Programming Masterclass";
     course_skills := ["Python"; "Data Structures"; "Algorithms"];
     level := "Intermediate" |}.

Definition ml_fundamentals : Course :=
  {| course_title := "Machine Learning Fundamentals";
     course_skills := ["Python"; "Machine Learning"; "Statistics"];
     level := "Advanced" |}.

Definition cloud_essentials : Course :=
  {| course_title := "Cloud Computing Essentials";
     course_skills := ["AWS"; "Cloud Architecture"; "DevOps"];
     level := "Beginner" |}.

(** [Recommender.__init__] *)
Definition init : Recommender := {|
  skill_weights :=
    [("Python", 1.2%Q); ("Java", 1.1%Q); ("SQL", 1.1%Q);
     ("Machine Learning", 1.3%Q); ("AWS", 1.2%Q);
     ("Docker", 1.1%Q); ("Kubernetes", 1.2%Q)];
  industry_clusters :=
    [("web_development", ["Python"; "Java"; "SQL"; "Git"]);
     ("data_science", ["Python"; "R"; "Machine Learning"; "Statistics"]);
     ("cloud_devops", ["Docker"; "Kubernetes"; "AWS"; "Linux"])];
  job_roles := [software_engineer; data_scientist; devops_engineer];
  courses := [python_masterclass; ml_fundamentals; cloud_essentials]
|}.

(** [analyzed_data.get('skills', [])] *)
Definition get_skills (analyzed_data : AnalyzedData) : list string :=
  match skills analyzed_data with
  | Some l => l
  | None => []
  end.

(** [analyzed_data.get('experience_level', 'intermediate')] *)
Definition get_experience_level (analyzed_data : AnalyzedData) : string :=
  match experience_level analyzed_data with
  | Some s => s
  | None => "intermediate"
  end.

(** ** The methods of [Recommender] *)

Section Methods.

Variable self : Recommender.

Local Open Scope R_scope.

(** [_apply_skill_weights]: each skill repeated [int(weight * 10)] times,
    joined by spaces *)
Definition _apply_skill_weights (skills : list string) : string :=
  String.concat " "
    (flat_map
       (fun skill =>
          let weight := dict_get (skill_weights self) skill 1.0%Q in
          repeat skill (Z.to_nat (int (weight * 10)%Q)))
       skills).

(** [set(skills) & set(cluster_skills)] *)
Definition common_skills (skills cluster_skills : list string) : list string :=
  nodup string_dec (filter (fun s => str_in s skills) cluster_skills).

(** [len(common_skills) / len(cluster_skills)] for a non-empty cluster *)
Definition overlap (skills cluster_skills : list string) : Q :=
  (Z.of_nat (List.length (common_skills skills cluster_skills))
   # Pos.of_nat (List.length cluster_skills))%Q.

(** one turn of the loop of [_get_industry_match] *)
Definition industry_score (skills : list string)
           (entry : string * list string) : result (string * Q) :=
  match snd entry with
  | [] => Raise ZeroDivisionError
  | _ :: _ => Ok (fst entry, overlap skills (snd entry))
  end.

(** [industry_scores.items()] when no cluster is empty *)
Definition scores_of (skills : list string) : list (string * Q) :=
  map (fun e => (fst e, overlap skills (snd e))) (industry_clusters self).

(** [_get_industry_match] *)
Definition _get_industry_match (skills : list string) : result (option string) :=
  industry_scores <- mapM (industry_score skills) (industry_clusters self) ;;
  Ok match industry_scores with
     | [] => None
     | first :: rest => Some (fst (max_from snd first rest))
     end.

(** [self.industry_clusters.get(industry_match, [])] *)
Definition cluster_of (industry_match : option string) : list string :=
  match industry_match with
  | Some industry => dict_get (industry_clusters self) industry []
  | None => []
  end.

(** [any(skill in cluster for skill in job['required_skills'])] *)
Definition industry_hit (industry_match : option string) (j : JobRole) : bool :=
  existsb (fun skill => str_in skill (cluster_of industry_match))
          (required_skills j).

(** the tokens of each job text *)
Definition job_docs : list (list string) :=
  map (fun j => tokenize (String.concat " " (required_skills j)))
      (job_roles self).

(** [base_similarities]: the job texts against the weighted skills *)
Definition job_similarities (weighted_skills : string) : result (list R) :=
  let job_texts :=
    (map (fun j => String.concat " " (required_skills j)) (job_roles self)
    ++ [weighted_skills])%list in
  tfidf_matrix <- fit_transform job_texts ;;
  last_against_rest tfidf_matrix.

(** the body of the loop of [_recommend_jobs] *)
Definition score_job (industry_match : option string)
           (entry : JobRole * R) : list JobRecommendation :=
  let (j, similarity) := entry in
  if Rlt_dec 0 similarity then
    let hit := industry_hit industry_match j in
    let industry_bonus := if hit then 0.2 else 0 in
    let final_score := Rmin (similarity + industry_bonus) 1.0 in
    [{| job := j;
        match_score := final_score;
        industry_alignment := if hit then industry_match else None |}]
  else [].

(** [_recommend_jobs] *)
Definition _recommend_jobs (weighted_skills : string)
           (industry_match : option string) : result (list JobRecommendation) :=
  base_similarities <- job_similarities weighted_skills ;;
  let job_recommendations :=
    flat_map (score_job industry_match)
             (combine (job_roles self) base_similarities) in
  Ok (firstn 3 (sort_desc match_score job_recommendations)).

(** [experience_levels.get(s.lower(), 1)] *)
Definition experience_ordinal (s : string) : Z :=
  dict_get [("beginner", 0%Z); ("intermediate", 1%Z); ("advanced", 2%Z)]
           (lower s) 1%Z.

(** the tokens of each course text *)
Definition course_docs : list (list string) :=
  map (fun c => tokenize (String.concat " " (course_skills c)))
      (courses self).

(** [cosine_similarities]: the course texts against the weighted skills *)
Definition course_similarities (weighted_skills : string) : result (list R) :=
  let course_texts :=
    (map (fun c => String.concat " " (course_skills c)) (courses self)
    ++ [weighted_skills])%list in
  tfidf_matrix <- fit_transform course_texts ;;
  last_against_rest tfidf_matrix.

(** [sum(self.skill_weights.get(skill, 1.0) for skill in l) / len(l)] *)
Definition mean_weight (l : list string) : Q :=
  (fold_left Qplus (map (fun skill => dict_get (skill_weights self) skill 1.0) l) 0
   / inject_Z (Z.of_nat (List.length l)))%Q.

(** [[skill for skill in course['skills'] if skill not in user_skills]] *)
Definition missing_of (user_skills : list string) (c : Course) : list string :=
  filter (fun skill => negb (str_in skill user_skills)) (course_skills c).

(** the body of the loop of [_recommend_courses] *)
Definition score_course (user_skills : list string) (experience_level : string)
           (entry : Course * R) : list CourseRecommendation :=
  let (c, similarity) := entry in
  let user_level := experience_ordinal experience_level in
  let course_level := experience_ordinal (level c) in
  let level_diff := Z.abs (course_level - user_level) in
  let adjusted_similarity := similarity * (1 - 0.2 * IZR level_diff) in
  let missing := missing_of user_skills c in
  match missing with
  | [] => []
  | _ :: _ =>
      [{| course := c;
          missing_skills := missing;
          relevance_score := adjusted_similarity;
          skill_importance := mean_weight missing;
          experience_match := String.eqb (level c) experience_level |}]
  end.

(** the sort key of [_recommend_courses] *)
Definition course_key (x : CourseRecommendation) : R :=
  relevance_score x * 0.7 + Q2R (skill_importance x) * 0.3.

(** [_recommend_courses] *)
Definition _recommend_courses (weighted_skills : string)
           (user_skills : list string) (experience_level : string)
  : result (list CourseRecommendation) :=
  cosine_similarities <- course_similarities weighted_skills ;;
  let course_recommendations :=
    flat_map (score_course user_skills experience_level)
             (combine (courses self) cosine_similarities) in
  Ok (firstn 3 (sort_desc course_key course_recommendations)).

(** [not industry_preference]: [None] and the empty string are falsy *)
Definition falsy (s : option string) : bool :=
  match s with
  | None => true
  | Some s' => String.eqb s' ""
  end.

(** [_get_industry_match(skills) if not industry_preference
     else industry_preference] *)
Definition industry_step (analyzed_data : AnalyzedData) : result (option string) :=
  if falsy (industry_preference analyzed_data)
  then _get_industry_match (get_skills analyzed_data)
  else Ok (industry_preference analyzed_data).

(** [get_recommendations] *)
Definition get_recommendations (analyzed_data : AnalyzedData)
  : result Recommendations :=
  let skills := get_skills analyzed_data in
  let experience_level := get_experience_level analyzed_data in
  let weighted_skills := _apply_skill_weights skills in
  industry_match <- industry_step analyzed_data ;;
  jobs <- _recommend_jobs weighted_skills industry_match ;;
  crs <- _recommend_courses weighted_skills skills experience_level ;;
  Ok {| job_recommendations := jobs;
        course_recommendations := crs;
        matched_industry := industry_match |}.

End Methods.

(** the Skill Weighting operation as the specification words it *)
Definition weight_by_rounding (self : Recommender) (skills : list string) : string :=
  String.concat " "
    (flat_map
       (fun skill =>
          let w := dict_get (skill_weights self) skill 1.0%Q in
          repeat skill (Z.to_nat (round (w * 10)%Q)))
       skills).

(** ** Profiles used as test inputs *)

Definition profile (l : list string) (lvl pref : option string) : AnalyzedData :=
  {| skills := Some l; experience_level := lvl; industry_preference := pref |}.

(** [{'skills': ['Welding']}] *)
Definition welder : AnalyzedData := profile ["Welding"] None None.

(** [{'skills': ['Agile']}] *)
Definition agile_only : AnalyzedData := profile ["Agile"] None None.

(** [{'skills': ['Machine Shop']}]: no skill of any job, one word of a job *)
Definition machinist : AnalyzedData := profile ["Machine Shop"] None None.

(** [{'skills': ['Docker', 'Kubernetes', 'AWS'], 'experience_level': 'beginner'}] *)
Definition cloud_beginner : AnalyzedData :=
  profile ["Docker"; "Kubernetes"; "AWS"] (Some "beginner") None.



(** ** Around the recommender: [parser.py], [nlp_processor.py], [main.py]

    These files drive three libraries (PyPDF2, python-docx, spaCy) and the
    web framework.  The libraries are not modelled: what the code asks of
    them is gathered in the record [Libraries], and every property below
    holds whatever they answer. *)

Module Lib.

(** the exceptions that travel through the pipeline *)
Inductive exc : Type :=
| HTTPException (status_code : nat) (detail : string)
| ValueError (msg : string)
| IndexError
| RecommenderError (e : Py.exn)   (* raised inside [get_recommendations] *)
| LibraryError (msg : string).    (* raised by a library *)

Inductive res (A : Type) : Type :=
| Return (a : A)
| Throw (e : exc).
Arguments Return {A} a.
Arguments Throw {A} e.

Definition and_then {A B} (m : res A) (k : A -> res B) : res B :=
  match m with
  | Return a => k a
  | Throw e => Throw e
  end.

(** [try: body  except Exception as e: handler(e)] *)
Definition try_except {A} (body : res A) (handler : exc -> res A) : res A :=
  match body with
  | Return a => Return a
  | Throw e => handler e
  end.

(** what the code reads of a spaCy token, entity, span and document *)
Record Token : Type := {
  is_stop : bool;
  dep_ : string;
  pos_ : string;
  subtree : list string    (* the texts of the tokens of [token.subtree] *)
}.

Record Entity : Type := {
  label_ : string;
  ent_text : string
}.

Record Span : Type := {
  span_text : string;
  span_tokens : list Token;
  span_ents : list Entity
}.

Record Doc : Type := {
  noun_chunks : list Span;
  sents : list Span;
  ents : list Entity
}.

Record Libraries : Type := {
  (** [Path(name).suffix] *)
  path_suffix : string -> string;
  (** [PyPDF2.PdfReader(content).pages], each page with what
      [page.extract_text()] does *)
  PdfReader : string -> res (list (res string));
  (** [[paragraph.text for paragraph in Document(content).paragraphs]] *)
  Document : string -> res (list string);
  (** [self.nlp(text)] *)
  nlp : string -> res Doc;
  (** [list(set(l))], in the order the interpreter iterates the set *)
  list_of_set : list string -> list string;
  (** [str(e)] *)
  str : exc -> string
}.

(** [list(set(l))] has the members of [l], each once *)
Definition set_order_ok (f : list string -> list string) : Prop :=
  forall l, NoDup (f l) /\ forall x, In x (f l) <-> In x l.

End Lib.

Import Lib.

Notation "x <~ m ;; k" := (Lib.and_then m (fun x => k))
  (at level 61, m at next level, right associativity).

(** *** [parser.py] *)

Module ResumeParser.

Record Sections : Type := {
  education : list string;
  experience : list string;
  skills : list string
}.

(** the dict returned by [parse] *)
Record ParsedData : Type := {
  raw_text : string;
  sections : Sections
}.

(** [text += page.extract_text()] for each page *)
Fixpoint read_pages (pages : list (res string)) (text : string) : res string :=
  match pages with
  | [] => Return text
  | page :: pages' => t <~ page ;; read_pages pages' (text ++ t)
  end.

Definition _parse_pdf (lib : Libraries) (content : string) : res string :=
  try_except
    (pages <~ PdfReader lib content ;; read_pages pages "")
    (fun e => Throw (ValueError ("Error parsing PDF: " ++ str lib e))).

Definition _parse_doc (lib : Libraries) (content : string) : res string :=
  try_except
    (paragraphs <~ Document lib content ;;
     Return (String.concat (String "010" "") paragraphs))
    (fun e => Throw (ValueError ("Error parsing DOC/DOCX: " ++ str lib e))).

(** [self.supported_formats] *)
Definition supported_formats
  : list (string * (Libraries -> string -> res string)) :=
  [(".pdf", _parse_pdf); (".doc", _parse_doc); (".docx", _parse_doc)].

Definition _extract_education (text : string) : list string := [].
Definition _extract_experience (text : string) : list string := [].
Definition _extract_skills (text : string) : list string := [].

Definition _extract_information (text : string) : ParsedData :=
  {| raw_text := text;
     sections := {| education := _extract_education text;
                    experience := _extract_experience text;
                    skills := _extract_skills text |} |}.

(** [file_extension in self.supported_formats], then the lookup *)
Fixpoint lookup {V} (d : list (string * V)) (k : string) : option V :=
  match d with
  | [] => None
  | (k', v) :: d' => if String.eqb k' k then Some v else lookup d' k
  end.

Definition parse (lib : Libraries) (content file_extension : string)
  : res ParsedData :=
  match lookup supported_formats file_extension with
  | None => Throw (ValueError ("Unsupported file format: " ++ file_extension))
  | Some parser_func =>
      text_content <~ parser_func lib content ;;
      Return (_extract_information text_content)
  end.

End ResumeParser.

(** *** [nlp_processor.py] *)

Module NLPProcessor.

(** the dict returned by [analyze] *)
Record Analysis : Type := {
  skills : list string;
  key_phrases : list string;
  entities : list (string * list string);
  summary : string
}.

Definition _extract_skills (lib : Libraries) (text : string)
  : res (list string) :=
  doc <~ nlp lib text ;;
  Return
    (list_of_set lib
       (map span_text
            (filter (fun chunk => negb (existsb is_stop (span_tokens chunk)))
                    (noun_chunks doc)))).

Definition _extract_key_phrases (lib : Libraries) (text : string)
  : res (list string) :=
  doc <~ nlp lib text ;;
  Return
    (flat_map
       (fun sent =>
          flat_map
            (fun token =>
               if String.eqb (dep_ token) "ROOT"
                  && String.eqb (pos_ token) "VERB"
               then [String.concat " " (subtree token)]
               else [])
            (span_tokens sent))
       (sents doc)).

(** [if label not in entities: entities[label] = []] then
    [entities[label].append(text)] *)
Fixpoint add_entity (entities : list (string * list string))
         (label text : string) : list (string * list string) :=
  match entities with
  | [] => [(label, [text])]
  | (k, texts) :: rest =>
      if String.eqb k label then (k, (texts ++ [text])%list) :: rest
      else (k, texts) :: add_entity rest label text
  end.

Definition _extract_entities (lib : Libraries) (text : string)
  : res (list (string * list string)) :=
  doc <~ nlp lib text ;;
  Return
    (fold_left
       (fun entities ent => add_entity entities (label_ ent) (ent_text ent))
       (ents doc) []).

(** [any(ent.label_ in ['ORG', 'DATE', 'SKILL'] for ent in sent.ents)] *)
Definition is_important (sent : Span) : bool :=
  existsb (fun ent => str_in (label_ ent) ["ORG"; "DATE"; "SKILL"])
          (span_ents sent).

Definition _generate_summary (lib : Libraries) (text : string) : res string :=
  doc <~ nlp lib text ;;
  match sents doc with
  | [] => Throw IndexError
  | first :: rest =>
      let important_sentences :=
        span_text first :: map span_text (filter is_important rest) in
      Return (String.concat " " (firstn 3 important_sentences))
  end.

Definition analyze (lib : Libraries) (parsed_data : ResumeParser.ParsedData)
  : res Analysis :=
  let raw_text := ResumeParser.raw_text parsed_data in
  extracted_skills <~ _extract_skills lib raw_text ;;
  phrases <~ _extract_key_phrases lib raw_text ;;
  found <~ _extract_entities lib raw_text ;;
  text_summary <~ _generate_summary lib raw_text ;;
  Return {| skills := extracted_skills;
            key_phrases := phrases;
            entities := found;
            summary := text_summary |}.

(** the dict of [analyze] as [get_recommendations] reads it: it has the key
    [skills] and neither [experience_level] nor [industry_preference] *)
Definition as_analyzed_data (a : Analysis) : AnalyzedData :=
  Build_AnalyzedData (Some (skills a)) None None.

End NLPProcessor.

(** *** [main.py] *)

Module App.

(** the body [data] of a successful answer *)
Record ResponseData : Type := {
  parsed_info : NLPProcessor.Analysis;
  recommendations : Recommendations
}.

Definition allowed_extensions : list string := [".pdf"; ".doc"; ".docx"].

(** an exception of the recommender, seen from the handler *)
Definition of_recommender {A} (m : result A) : res A :=
  match m with
  | Ok a => Return a
  | Raise e => Throw (RecommenderError e)
  end.

(** what the handler uses of the uploaded file *)
Record UploadFile : Type := {
  filename : string;
  read : res string     (* [await file.read()] *)
}.

(** [upload_resume]; the module-level [recommender] is an argument *)
Definition upload_resume (lib : Libraries) (recommender : Recommender)
           (file : UploadFile) : res ResponseData :=
  try_except
    (let file_extension := lower (path_suffix lib (filename file)) in
     if negb (str_in file_extension allowed_extensions)
     then Throw (HTTPException
                   400
                   ("Invalid file format. Allowed formats: "
                    ++ String.concat ", " (list_of_set lib allowed_extensions)))
     else
       content <~ read file ;;
       parsed_data <~ ResumeParser.parse lib content file_extension ;;
       analyzed_data <~ NLPProcessor.analyze lib parsed_data ;;
       recs <~ of_recommender
                 (get_recommendations
                    recommender (NLPProcessor.as_analyzed_data analyzed_data)) ;;
       Return {| parsed_info := analyzed_data; recommendations := recs |})
    (fun e => Throw (HTTPException 500 (str lib e))).

End App.

(** a stand-in for the libraries, to run the pipeline on: every file is a
    one-page PDF named [*.PDF] whose text is its content, and every text has
    one sentence and the noun chunks Python, Docker, Python *)
Definition sample_libraries : Libraries :=
  {| path_suffix := fun _ => ".PDF";
     PdfReader := fun content => Return [Return content];
     Document := fun content => Return [content];
     nlp := fun text =>
              Return
                {| noun_chunks :=
                     [{| span_text := "Python"; span_tokens := [];
                         span_ents := [] |};
                      {| span_text := "Docker"; span_tokens := [];
                         span_ents := [] |};
                      {| span_text := "Python"; span_tokens := [];
                         span_ents := [] |}];
                   sents := [{| span_text := text; span_tokens := [];
                                span_ents := [] |}];
                   ents := [{| label_ := "ORG"; ent_text := "ACME" |};
                            {| label_ := "DATE"; ent_text := "2020" |};
                            {| label_ := "ORG"; ent_text := "Initech" |}] |};
     list_of_set := nodup string_dec;
     str := fun _ => "error" |}.

(** the same, with the set iterated in the opposite order *)
Definition sample_libraries_reversed : Libraries :=
  {| path_suffix := path_suffix sample_libraries;
     PdfReader := PdfReader sample_libraries;
     Document := Document sample_libraries;
     nlp := nlp sample_libraries;
     list_of_set := fun l => rev (nodup string_dec l);
     str := str sample_libraries |}.

Definition sample_file : App.UploadFile :=
  {| App.filename := "cv.PDF"; App.read := Return "Python and Docker." |}.

(** the texts of the entities of [l] that carry [label], in order *)
Definition texts_labelled (label : string) (l : list Entity) : list string :=
  map ent_text (filter (fun e => String.eqb (label_ e) label) l).

(** ** Auxiliary notions for the properties below *)

(** some token of [q] occurs in [d] *)
Definition shares_token (q d : list string) : bool :=
  existsb (fun t => str_in t d) q.

(** [a] occurs before [b] in [l] *)
Definition before {A : Type} (a b : A) (l : list A) : Prop :=
  exists l1 l2 l3, l = (l1 ++ a :: l2 ++ b :: l3)%list.

(** the sum of [h] over the terms of [V] *)
Definition sum_over (V : list string) (h : string -> R) : R :=
  fold_right (fun t acc => (h t + acc)%R) 0%R V.

(** [x] divided by the square root of [s], unless that root is 0 *)
Definition rescale (s x : R) : R :=
  if Req_dec_T (sqrt s) 0 then x else (x / sqrt s)%R.

(** the entry at term [t] of the normalised row whose entries are [f] *)
Definition normalised (V : list string) (f : string -> R) (t : string) : R :=
  rescale (sum_over V (fun u => (f u * f u)%R)) (f t).

(** the number of times [_apply_skill_weights] writes a skill *)
Definition repetitions (self : Recommender) (skill : string) : nat :=
  Z.to_nat (int (dict_get (skill_weights self) skill 1.0 * 10)%Q).

(** every character of [s] is in the ASCII range *)
Definition ascii_only (s : string) : bool :=
  forallb (fun c => (nat_of_ascii c <? 128)%nat) (list_ascii_of_string s).

(** a job recommendation without its score *)
Definition job_outline (rec : JobRecommendation) : JobRole * option string :=
  (job rec, industry_alignment rec).

(** a course recommendation without its relevance *)
Definition course_outline (rec : CourseRecommendation)
  : Course * list string * Q * bool :=
  (course rec, missing_skills rec, skill_importance rec, experience_match rec).

(** ** Facts about the Python built-ins *)

Section PyFacts.

Lemma bind_Ok_inv {A B} (m : result A) (k : A -> result B) (b : B) :
  bind m k = Ok b -> exists a, m = Ok a /\ k a = Ok b.
Proof.
  destruct m as [a|e]; simpl; intros H.
  - exists a; auto.
  - discriminate.
Qed.

Lemma str_in_In (x : string) (l : list string) :
  str_in x l = true <-> In x l.
Proof.
  unfold str_in. rewrite existsb_exists. split.
  - intros [y [Hy Heq]]. apply String.eqb_eq in Heq. now subst.
  - intros H. exists x. split; auto. apply String.eqb_refl.
Qed.

Lemma str_in_false (x : string) (l : list string) :
  str_in x l = false <-> ~ In x l.
Proof.
  rewrite <- str_in_In. destruct (str_in x l); split; intros; congruence.
Qed.

Variable A : Type.
Variable key : A -> R.

Lemma insert_desc_perm (x : A) (l : list A) :
  Permutation (insert_desc key x l) (x :: l).
Proof.
  induction l as [|y l IH]; simpl.
  - apply Permutation_refl.
  - destruct (Rlt_dec (key x) (key y)).
    + eapply perm_trans; [ apply perm_skip, IH | apply perm_swap ].
    + apply Permutation_refl.
Qed.

Lemma sort_desc_perm (l : list A) : Permutation (sort_desc key l) l.
Proof.
  induction l as [|x l IH]; simpl.
  - apply perm_nil.
  - eapply perm_trans; [ apply insert_desc_perm | apply perm_skip, IH ].
Qed.

Lemma sort_desc_In (l : list A) (x : A) : In x (sort_desc key l) <-> In x l.
Proof.
  split; apply Permutation_in;
    [ apply sort_desc_perm | apply Permutation_sym, sort_desc_perm ].
Qed.

Lemma sort_desc_length (l : list A) :
  List.length (sort_desc key l) = List.length l.
Proof. apply Permutation_length, sort_desc_perm. Qed.

Lemma In_firstn_In (n : nat) (l : list A) (x : A) :
  In x (firstn n l) -> In x l.
Proof.
  revert l. induction n as [|n IH]; intros [|y l]; simpl;
    try contradiction.
  intros [H|H]; auto.
Qed.

Lemma In_top (n : nat) (l : list A) (x : A) :
  In x (firstn n (sort_desc key l)) -> In x l.
Proof.
  intros H. apply sort_desc_In. revert H. apply In_firstn_In.
Qed.

Lemma top_all (n : nat) (l : list A) (x : A) :
  (List.length l <= n)%nat -> In x l -> In x (firstn n (sort_desc key l)).
Proof.
  intros Hlen H. rewrite firstn_all2.
  - now apply sort_desc_In.
  - now rewrite sort_desc_length.
Qed.

End PyFacts.

(** ** Facts about the TF-IDF model *)

Section SklearnFacts.

Local Open Scope R_scope.

Lemma dot_scale (a b : R) (u v : list R) :
  dot (map (Rmult a) u) (map (Rmult b) v) = a * b * dot u v.
Proof.
  revert v. induction u as [|x u IH]; intros [|y v]; simpl; try ring.
  rewrite IH. ring.
Qed.

Lemma dot_self_nonneg (v : list R) : 0 <= dot v v.
Proof.
  induction v as [|x v IH]; simpl; [ lra | nra ].
Qed.

(** normalising multiplies a row by a positive factor *)
Lemma l2_normalize_scale (v : list R) :
  exists c, 0 < c /\ l2_normalize v = map (Rmult c) v.
Proof.
  unfold l2_normalize. destruct (Req_dec_T (sqrt (dot v v)) 0) as [E|E].
  - exists 1. split; [ lra | ].
    rewrite <- (map_id v) at 1. apply map_ext. intros; ring.
  - assert (Hpos : 0 < sqrt (dot v v)).
    { destruct (sqrt_pos (dot v v)) as [H|H]; [ exact H | congruence ]. }
    exists (/ sqrt (dot v v)). split.
    + now apply Rinv_0_lt_compat.
    + apply map_ext. intros x. unfold Rdiv. ring.
Qed.

(** the dot product of two rows over the same terms *)
Lemma dot_map (V : list string) (f g : string -> R) :
  dot (map f V) (map g V) = fold_right (fun t acc => f t * g t + acc) 0 V.
Proof.
  induction V as [|t V IH]; simpl; [ reflexivity | now rewrite IH ].
Qed.

Lemma sum_zero (V : list string) (h : string -> R) :
  (forall t, In t V -> h t = 0) ->
  fold_right (fun t acc => h t + acc) 0 V = 0.
Proof.
  induction V as [|t V IH]; simpl; intros H; [ reflexivity | ].
  rewrite H, IH by auto. ring.
Qed.

Lemma sum_nonneg (V : list string) (h : string -> R) :
  (forall t, In t V -> 0 <= h t) ->
  0 <= fold_right (fun t acc => h t + acc) 0 V.
Proof.
  induction V as [|t V IH]; simpl; intros H; [ lra | ].
  assert (0 <= h t) by auto. assert (0 <= fold_right (fun t acc => h t + acc) 0 V) by auto.
  lra.
Qed.

Lemma sum_pos (V : list string) (h : string -> R) (t0 : string) :
  (forall t, In t V -> 0 <= h t) -> In t0 V -> 0 < h t0 ->
  0 < fold_right (fun t acc => h t + acc) 0 V.
Proof.
  induction V as [|t V IH]; simpl; intros Hnn Hin Hpos; [ contradiction | ].
  assert (0 <= h t) by auto.
  destruct Hin as [->|Hin].
  - assert (0 <= fold_right (fun t acc => h t + acc) 0 V)
      by (apply sum_nonneg; auto).
    lra.
  - assert (0 < fold_right (fun t acc => h t + acc) 0 V) by auto.
    lra.
Qed.

Lemma df_le (docs : list (list string)) (t : string) :
  (df docs t <= List.length docs)%nat.
Proof. unfold df. apply filter_length_le. Qed.

Lemma idf_pos (docs : list (list string)) (t : string) : 0 < idf docs t.
Proof.
  unfold idf.
  assert (Hd : 0 <= INR (df docs t)) by apply pos_INR.
  assert (Hle : INR (df docs t) <= INR (List.length docs))
    by apply le_INR, df_le.
  set (n := INR (List.length docs)) in *. set (k := INR (df docs t)) in *.
  assert (H1 : 1 <= (1 + n) / (1 + k)).
  { apply Rmult_le_reg_r with (1 + k); [ lra | ].
    unfold Rdiv. rewrite Rmult_assoc, Rinv_l by lra. lra. }
  destruct H1 as [H1|H1].
  - assert (ln 1 < ln ((1 + n) / (1 + k))) by (apply ln_increasing; lra).
    rewrite ln_1 in *. lra.
  - rewrite <- H1, ln_1. lra.
Qed.

Lemma cosine_factor (docs : list (list string)) (q d : list string) :
  exists c, 0 < c /\
    cosine docs q d =
    c * fold_right (fun t acc => weight docs q t * weight docs d t + acc) 0
                   (vocabulary docs).
Proof.
  unfold cosine, tfidf_row.
  set (rq := map (fun t => INR (tf t q) * idf docs t) (vocabulary docs)).
  set (rd := map (fun t => INR (tf t d) * idf docs t) (vocabulary docs)).
  destruct (l2_normalize_scale rq) as [a [Ha Ea]].
  destruct (l2_normalize_scale rd) as [b [Hb Eb]].
  destruct (l2_normalize_scale (l2_normalize rq)) as [a' [Ha' Ea']].
  destruct (l2_normalize_scale (l2_normalize rd)) as [b' [Hb' Eb']].
  exists (a' * b' * (a * b)). split.
  - apply Rmult_lt_0_compat; apply Rmult_lt_0_compat; assumption.
  - rewrite Ea', Eb', dot_scale, Ea, Eb, dot_scale.
    unfold rq, rd. rewrite dot_map. unfold weight. ring.
Qed.

(** documents without a common term have similarity 0 *)
Lemma cosine_disjoint (docs : list (list string)) (q d : list string) :
  (forall t, In t q -> ~ In t d) -> cosine docs q d = 0.
Proof.
  intros Hdis. destruct (cosine_factor docs q d) as [c [_ ->]].
  rewrite sum_zero; [ ring | ].
  intros t _. unfold weight, tf.
  destruct (in_dec string_dec t q) as [Hq|Hq].
  - apply Hdis in Hq. apply (count_occ_not_In string_dec) in Hq.
    rewrite Hq. simpl. ring.
  - apply (count_occ_not_In string_dec) in Hq. rewrite Hq. simpl. ring.
Qed.

Lemma weight_nonneg (docs : list (list string)) (d : list string) (t : string) :
  0 <= weight docs d t.
Proof.
  unfold weight. apply Rmult_le_pos; [ apply pos_INR | ].
  left. apply idf_pos.
Qed.

Lemma weight_pos (docs : list (list string)) (d : list string) (t : string) :
  In t d -> 0 < weight docs d t.
Proof.
  intros H. unfold weight. apply Rmult_lt_0_compat; [ | apply idf_pos ].
  apply (count_occ_In string_dec) in H. unfold tf.
  apply lt_0_INR. lia.
Qed.

(** documents of the corpus with a common term have positive similarity *)
Lemma cosine_common (docs : list (list string)) (q d : list string) (t : string) :
  In q docs -> In t q -> In t d -> 0 < cosine docs q d.
Proof.
  intros Hq Htq Htd. destruct (cosine_factor docs q d) as [c [Hc ->]].
  apply Rmult_lt_0_compat; [ exact Hc | ].
  apply (sum_pos (vocabulary docs)
                 (fun t => weight docs q t * weight docs d t) t).
  - intros u _. apply Rmult_le_pos; apply weight_nonneg.
  - unfold vocabulary. apply nodup_In. apply in_concat. exists q. auto.
  - apply Rmult_lt_0_compat; now apply weight_pos.
Qed.

(** the similarities are never negative *)
Lemma cosine_nonneg (docs : list (list string)) (q d : list string) :
  0 <= cosine docs q d.
Proof.
  destruct (cosine_factor docs q d) as [c [Hc ->]].
  apply Rmult_le_pos; [ lra | ].
  apply (sum_nonneg (vocabulary docs)
                    (fun t => weight docs q t * weight docs d t)).
  intros u _. apply Rmult_le_pos; apply weight_nonneg.
Qed.

Lemma skipn_last (B : Type) (l : list B) (x : B) :
  skipn (List.length (l ++ [x])%list - 1) (l ++ [x])%list = [x].
Proof.
  rewrite length_app. simpl.
  replace (List.length l + 1 - 1)%nat with (List.length l) by lia.
  rewrite skipn_app, skipn_all, Nat.sub_diag. reflexivity.
Qed.

(** fitting a corpus and a query, then comparing the query with the rest *)
Lemma query_similarities (texts : list string) (query : string) :
  let docs := map tokenize (texts ++ [query])%list in
  texts <> [] ->
  vocabulary docs <> [] ->
  bind (fit_transform (texts ++ [query])%list) last_against_rest =
  Ok (map (fun text => cosine docs (tokenize query) (tokenize text)) texts).
Proof.
  intros docs Ht Hv. unfold fit_transform. fold docs.
  destruct (vocabulary docs) as [|t V] eqn:E; [ congruence | ].
  cbn [bind]. unfold last_against_rest.
  assert (Hm : map (tfidf_row docs) docs =
               (map (tfidf_row docs) (map tokenize texts)
                ++ [tfidf_row docs (tokenize query)])%list).
  { unfold docs at 2. now rewrite map_app, map_app. }
  rewrite Hm, skipn_last, removelast_last.
  destruct texts as [|text texts]; [ congruence | ].
  cbn [map cosine_similarity bind]. rewrite !map_map. reflexivity.
Qed.

Lemma vocabulary_nonempty (docs : list (list string)) (d : list string) (t : string) :
  In d docs -> In t d -> vocabulary docs <> [].
Proof.
  intros Hd Ht E.
  assert (H : In t (vocabulary docs)).
  { unfold vocabulary. apply nodup_In, in_concat. exists d. auto. }
  rewrite E in H. exact H.
Qed.

End SklearnFacts.

(** ** Facts about [max] *)

Section MaxFacts.

Variable A : Type.
Variable key : A -> Q.

Lemma Qltb_lt (a b : Q) : Qltb a b = true <-> (a < b)%Q.
Proof.
  unfold Qltb. rewrite negb_true_iff. split.
  - intros H. apply Qnot_le_lt. intros Hle.
    apply Qle_bool_iff in Hle. congruence.
  - intros H. destruct (Qle_bool b a) eqn:E; [ | reflexivity ].
    apply Qle_bool_iff in E. exfalso. revert E. now apply Qlt_not_le.
Qed.

Lemma Qltb_ge (a b : Q) : Qltb a b = false <-> (b <= a)%Q.
Proof.
  unfold Qltb. rewrite negb_false_iff. apply Qle_bool_iff.
Qed.

(** [max_from] returns the first item of maximal key: the items before it
    have a strictly smaller key, the items after it none greater *)
Lemma max_from_first (l pre post : list A) (best : A) :
  (forall x, In x pre -> (key x < key best)%Q) ->
  (forall x, In x post -> (key x <= key best)%Q) ->
  exists l1 l2,
    (pre ++ best :: post ++ l = l1 ++ max_from key best l :: l2)%list /\
    (forall x, In x l1 -> (key x < key (max_from key best l))%Q) /\
    (forall x, In x l2 -> (key x <= key (max_from key best l))%Q).
Proof.
  revert pre post best.
  induction l as [|x l IH]; intros pre post best Hpre Hpost; simpl.
  - exists pre, post. rewrite app_nil_r. auto.
  - destruct (Qltb (key best) (key x)) eqn:E.
    + apply Qltb_lt in E.
      destruct (IH (pre ++ best :: post)%list [] x) as [l1 [l2 [Heq H]]].
      * intros y Hy. apply in_app_or in Hy.
        destruct Hy as [Hy|[<-|Hy]]; auto.
        -- eapply Qlt_trans; eauto.
        -- eapply Qle_lt_trans; eauto.
      * intros y [].
      * exists l1, l2. split; [ | exact H ].
        rewrite <- Heq. rewrite <- app_assoc. reflexivity.
    + apply Qltb_ge in E.
      destruct (IH pre (post ++ [x])%list best) as [l1 [l2 [Heq H]]]; auto.
      * intros y Hy. apply in_app_or in Hy.
        destruct Hy as [Hy|[<-|[]]]; auto.
      * exists l1, l2. split; [ | exact H ].
        rewrite <- Heq. rewrite <- app_assoc. reflexivity.
Qed.

(** when no key exceeds the first one, the first item is returned *)
Lemma max_from_head (l : list A) (best : A) :
  (forall x, In x l -> (key x <= key best)%Q) -> max_from key best l = best.
Proof.
  induction l as [|x l IH]; simpl; intros H; [ reflexivity | ].
  assert (E : Qltb (key best) (key x) = false) by (apply Qltb_ge; auto).
  rewrite E. auto.
Qed.

End MaxFacts.

(** ** Facts about the methods *)

Section MethodFacts.

Variable self : Recommender.

Local Open Scope R_scope.

Lemma industry_scores_ok (skills : list string) (clusters : list (string * list string)) :
  (forall e, In e clusters -> snd e <> []) ->
  mapM (industry_score skills) clusters =
  Ok (map (fun e => (fst e, overlap skills (snd e))) clusters).
Proof.
  induction clusters as [|e cl IH]; simpl; intros H; [ reflexivity | ].
  unfold industry_score at 1.
  destruct (snd e) eqn:E; [ exfalso; apply (H e); auto | ].
  simpl. rewrite IH by auto. reflexivity.
Qed.

Lemma get_industry_match_ok (skills : list string) :
  (forall e, In e (industry_clusters self) -> snd e <> []) ->
  _get_industry_match self skills =
  Ok match scores_of self skills with
     | [] => None
     | first :: rest => Some (fst (max_from snd first rest))
     end.
Proof.
  intros H. unfold _get_industry_match.
  rewrite industry_scores_ok by exact H. reflexivity.
Qed.

Lemma job_similarities_ok (weighted_skills : string) (d : list string) (t : string) :
  In d (job_docs self) -> In t d ->
  job_similarities self weighted_skills =
  Ok (map (cosine (job_docs self ++ [tokenize weighted_skills])%list
                  (tokenize weighted_skills))
          (job_docs self)).
Proof.
  intros Hd Ht. unfold job_similarities.
  rewrite query_similarities.
  - unfold job_docs. rewrite map_app, !map_map. reflexivity.
  - unfold job_docs in Hd. intros E. apply map_eq_nil in E.
    rewrite E in Hd. exact Hd.
  - apply vocabulary_nonempty with d t; [ | exact Ht ].
    rewrite map_app. apply in_or_app. left.
    unfold job_docs in Hd. now rewrite map_map.
Qed.

Lemma course_similarities_ok (weighted_skills : string) (d : list string) (t : string) :
  In d (course_docs self) -> In t d ->
  course_similarities self weighted_skills =
  Ok (map (cosine (course_docs self ++ [tokenize weighted_skills])%list
                  (tokenize weighted_skills))
          (course_docs self)).
Proof.
  intros Hd Ht. unfold course_similarities.
  rewrite query_similarities.
  - unfold course_docs. rewrite map_app, !map_map. reflexivity.
  - unfold course_docs in Hd. intros E. apply map_eq_nil in E.
    rewrite E in Hd. exact Hd.
  - apply vocabulary_nonempty with d t; [ | exact Ht ].
    rewrite map_app. apply in_or_app. left.
    unfold course_docs in Hd. now rewrite map_map.
Qed.

(** what the loop of [_recommend_jobs] appends for a job *)
Lemma score_job_inv (industry_match : option string) (j : JobRole) (similarity : R)
      (r : JobRecommendation) :
  In r (score_job self industry_match (j, similarity)) ->
  0 < similarity /\
  r = {| job := j;
         match_score :=
           Rmin (similarity
                 + (if industry_hit self industry_match j then 0.2 else 0)) 1.0;
         industry_alignment :=
           if industry_hit self industry_match j then industry_match
           else None |}.
Proof.
  unfold score_job. destruct (Rlt_dec 0 similarity) as [Hpos|Hn]; simpl.
  - intros [<-|[]]. split; [ exact Hpos | reflexivity ].
  - intros [].
Qed.

Lemma score_job_zero (industry_match : option string) (j : JobRole) :
  score_job self industry_match (j, 0) = [].
Proof.
  unfold score_job. destruct (Rlt_dec 0 0) as [H|H]; [ lra | reflexivity ].
Qed.

Lemma score_job_pos (industry_match : option string) (j : JobRole) (similarity : R) :
  0 < similarity ->
  score_job self industry_match (j, similarity) =
  [{| job := j;
      match_score :=
        Rmin (similarity
              + (if industry_hit self industry_match j then 0.2 else 0)) 1.0;
      industry_alignment :=
        if industry_hit self industry_match j then industry_match
        else None |}].
Proof.
  intros Hpos. unfold score_job.
  destruct (Rlt_dec 0 similarity) as [H|H]; [ reflexivity | contradiction ].
Qed.

Lemma recommend_jobs_inv (weighted_skills : string) (industry_match : option string)
      (recs : list JobRecommendation) :
  _recommend_jobs self weighted_skills industry_match = Ok recs ->
  exists sims,
    job_similarities self weighted_skills = Ok sims /\
    recs = firstn 3 (sort_desc match_score
                       (flat_map (score_job self industry_match)
                                 (combine (job_roles self) sims))).
Proof.
  unfold _recommend_jobs. intros H.
  apply bind_Ok_inv in H. destruct H as [sims [Hs H]].
  exists sims. split; [ exact Hs | congruence ].
Qed.

(** what the loop of [_recommend_courses] appends for a course *)
Lemma score_course_inv (user_skills : list string) (lvl : string)
      (c : Course) (similarity : R) (r : CourseRecommendation) :
  In r (score_course self user_skills lvl (c, similarity)) ->
  missing_of user_skills c <> [] /\
  r = {| course := c;
         missing_skills := missing_of user_skills c;
         relevance_score :=
           similarity
           * (1 - 0.2 * IZR (Z.abs (experience_ordinal (level c)
                                    - experience_ordinal lvl)));
         skill_importance := mean_weight self (missing_of user_skills c);
         experience_match := String.eqb (level c) lvl |}.
Proof.
  unfold score_course.
  destruct (missing_of user_skills c) as [|m ms] eqn:E; simpl.
  - intros [].
  - intros [<-|[]]. split; [ discriminate | reflexivity ].
Qed.

Lemma score_course_missing (user_skills : list string) (lvl : string)
      (c : Course) (similarity : R) :
  missing_of user_skills c <> [] ->
  score_course self user_skills lvl (c, similarity) =
  [{| course := c;
      missing_skills := missing_of user_skills c;
      relevance_score :=
        similarity
        * (1 - 0.2 * IZR (Z.abs (experience_ordinal (level c)
                                 - experience_ordinal lvl)));
      skill_importance := mean_weight self (missing_of user_skills c);
      experience_match := String.eqb (level c) lvl |}].
Proof.
  intros H. unfold score_course.
  destruct (missing_of user_skills c) as [|m ms] eqn:E;
    [ congruence | reflexivity ].
Qed.

Lemma score_course_length (user_skills : list string) (lvl : string)
      (e : Course * R) :
  (List.length (score_course self user_skills lvl e) <= 1)%nat.
Proof.
  destruct e as [c similarity]. unfold score_course.
  destruct (missing_of user_skills c); simpl; lia.
Qed.

Lemma recommend_courses_inv (weighted_skills : string) (user_skills : list string)
      (lvl : string) (recs : list CourseRecommendation) :
  _recommend_courses self weighted_skills user_skills lvl = Ok recs ->
  exists sims,
    course_similarities self weighted_skills = Ok sims /\
    recs = firstn 3 (sort_desc course_key
                       (flat_map (score_course self user_skills lvl)
                                 (combine (courses self) sims))).
Proof.
  unfold _recommend_courses. intros H.
  apply bind_Ok_inv in H. destruct H as [sims [Hs H]].
  exists sims. split; [ exact Hs | congruence ].
Qed.

Lemma get_recommendations_inv (analyzed_data : AnalyzedData) (r : Recommendations) :
  get_recommendations self analyzed_data = Ok r ->
  industry_step self analyzed_data = Ok (matched_industry r) /\
  _recommend_jobs self (_apply_skill_weights self (get_skills analyzed_data))
                  (matched_industry r) = Ok (job_recommendations r) /\
  _recommend_courses self (_apply_skill_weights self (get_skills analyzed_data))
                     (get_skills analyzed_data)
                     (get_experience_level analyzed_data)
  = Ok (course_recommendations r).
Proof.
  unfold get_recommendations. intros H.
  apply bind_Ok_inv in H. destruct H as [im [Him H]].
  apply bind_Ok_inv in H. destruct H as [jobs [Hj H]].
  apply bind_Ok_inv in H. destruct H as [crs [Hc H]].
  injection H as <-. simpl. auto.
Qed.

Lemma get_recommendations_intro (analyzed_data : AnalyzedData)
      (im : option string) (jobs : list JobRecommendation)
      (crs : list CourseRecommendation) :
  industry_step self analyzed_data = Ok im ->
  _recommend_jobs self (_apply_skill_weights self (get_skills analyzed_data)) im
  = Ok jobs ->
  _recommend_courses self (_apply_skill_weights self (get_skills analyzed_data))
                     (get_skills analyzed_data)
                     (get_experience_level analyzed_data) = Ok crs ->
  get_recommendations self analyzed_data =
  Ok {| job_recommendations := jobs;
        course_recommendations := crs;
        matched_industry := im |}.
Proof.
  intros Him Hj Hc. unfold get_recommendations. rewrite Him. simpl.
  rewrite Hj. simpl. rewrite Hc. reflexivity.
Qed.

End MethodFacts.

(** ** The recommender built by [__init__] *)

Section InitFacts.

Local Open Scope R_scope.

Lemma init_clusters_nonempty (e : string * list string) :
  In e (industry_clusters init) -> snd e <> [].
Proof.
  simpl. intros [<-|[<-|[<-|[]]]]; discriminate.
Qed.

Lemma init_industry_match (skills : list string) :
  _get_industry_match init skills =
  Ok (Some (fst (max_from snd
                   ("web_development",
                    overlap skills ["Python"; "Java"; "SQL"; "Git"])
                   [("data_science",
                     overlap skills
                             ["Python"; "R"; "Machine Learning"; "Statistics"]);
                    ("cloud_devops",
                     overlap skills
                             ["Docker"; "Kubernetes"; "AWS"; "Linux"])]))).
Proof.
  rewrite get_industry_match_ok by apply init_clusters_nonempty.
  reflexivity.
Qed.

Lemma init_industry_step (analyzed_data : AnalyzedData) :
  exists im, industry_step init analyzed_data = Ok im.
Proof.
  unfold industry_step. destruct (falsy (industry_preference analyzed_data)).
  - rewrite init_industry_match. eauto.
  - eauto.
Qed.

Lemma init_job_docs :
  job_docs init =
  [["python"; "java"; "sql"; "git"; "agile"];
   ["python"; "machine"; "learning"; "sql"; "statistics"];
   ["docker"; "kubernetes"; "ci"; "cd"; "aws"; "linux"]].
Proof. vm_compute. reflexivity. Qed.

Lemma init_course_docs :
  course_docs init =
  [["python"; "data"; "structures"; "algorithms"];
   ["python"; "machine"; "learning"; "statistics"];
   ["aws"; "cloud"; "architecture"; "devops"]].
Proof. vm_compute. reflexivity. Qed.

Lemma init_job_similarities (weighted_skills : string) :
  job_similarities init weighted_skills =
  Ok (map (cosine (job_docs init ++ [tokenize weighted_skills])%list
                  (tokenize weighted_skills))
          (job_docs init)).
Proof.
  apply job_similarities_ok
    with (d := ["python"; "java"; "sql"; "git"; "agile"]) (t := "python").
  - rewrite init_job_docs. simpl. auto.
  - simpl. auto.
Qed.

Lemma init_course_similarities (weighted_skills : string) :
  course_similarities init weighted_skills =
  Ok (map (cosine (course_docs init ++ [tokenize weighted_skills])%list
                  (tokenize weighted_skills))
          (course_docs init)).
Proof.
  apply course_similarities_ok
    with (d := ["python"; "data"; "structures"; "algorithms"]) (t := "python").
  - rewrite init_course_docs. simpl. auto.
  - simpl. auto.
Qed.

(** with the catalogs of [__init__] no step of [get_recommendations] raises *)
Lemma init_total (analyzed_data : AnalyzedData) :
  exists r, get_recommendations init analyzed_data = Ok r.
Proof.
  destruct (init_industry_step analyzed_data) as [im Him].
  eexists. apply get_recommendations_intro with (im := im).
  - exact Him.
  - unfold _recommend_jobs. rewrite init_job_similarities. reflexivity.
  - unfold _recommend_courses. rewrite init_course_similarities. reflexivity.
Qed.

Lemma top3_length (B : Type) (key : B -> R) (l : list B) :
  (List.length (firstn 3 (sort_desc key l)) <= 3)%nat.
Proof. apply firstn_le_length. Qed.

Lemma match_score_bounds (self : Recommender) (weighted_skills : string)
      (im : option string) (recs : list JobRecommendation) (r : JobRecommendation) :
  _recommend_jobs self weighted_skills im = Ok recs -> In r recs ->
  0 <= match_score r <= 1.
Proof.
  intros H Hin. apply recommend_jobs_inv in H. destruct H as [sims [_ ->]].
  apply In_top, in_flat_map in Hin. destruct Hin as [[j sim] [_ Hr]].
  apply score_job_inv in Hr. destruct Hr as [Hpos ->]. simpl.
  split.
  - apply Rmin_glb; [ | lra ].
    destruct (industry_hit self im j); lra.
  - eapply Rle_trans; [ apply Rmin_r | lra ].
Qed.

(** a decidable test that no token of [q] occurs in [d] *)
Lemma cosine_disjoint_b (docs : list (list string)) (q d : list string) :
  forallb (fun t => negb (str_in t d)) q = true -> cosine docs q d = 0.
Proof.
  intros H. apply cosine_disjoint. intros t Ht.
  rewrite forallb_forall in H. specialize (H t Ht).
  apply negb_true_iff in H. now apply str_in_false.
Qed.

Lemma cosine_all_disjoint (docs ds : list (list string)) (q : list string) :
  forallb (fun d => forallb (fun t => negb (str_in t d)) q) ds = true ->
  map (cosine docs q) ds = map (fun _ => 0) ds.
Proof.
  intros H. apply map_ext_in. intros d Hd.
  apply cosine_disjoint_b. rewrite forallb_forall in H. auto.
Qed.

Lemma score_job_all_zero (self : Recommender) (im : option string)
      (jobs : list JobRole) (sims : list R) :
  Forall (eq 0) sims ->
  flat_map (score_job self im) (combine jobs sims) = [].
Proof.
  intros H. revert jobs. induction H as [|x sims <- _ IH]; intros [|j jobs];
    cbn [combine flat_map]; try reflexivity.
  rewrite score_job_zero, IH. reflexivity.
Qed.

(** a weighted text without a token of any job text gets no job *)
Lemma no_common_token_no_job (weighted_skills : string) (im : option string) :
  forallb (fun d => forallb (fun t => negb (str_in t d))
                            (tokenize weighted_skills))
          (job_docs init) = true ->
  job_similarities init weighted_skills = Ok [0; 0; 0] /\
  _recommend_jobs init weighted_skills im = Ok [].
Proof.
  intros H.
  assert (Hs : job_similarities init weighted_skills = Ok [0; 0; 0]).
  { rewrite init_job_similarities, cosine_all_disjoint by exact H.
    rewrite init_job_docs. reflexivity. }
  split; [ exact Hs | ].
  unfold _recommend_jobs. rewrite Hs. cbn [bind].
  rewrite score_job_all_zero by (repeat constructor). reflexivity.
Qed.

Lemma no_common_token_course_similarities (weighted_skills : string) :
  forallb (fun d => forallb (fun t => negb (str_in t d))
                            (tokenize weighted_skills))
          (course_docs init) = true ->
  course_similarities init weighted_skills = Ok [0; 0; 0].
Proof.
  intros H.
  rewrite init_course_similarities, cosine_all_disjoint by exact H.
  rewrite init_course_docs. reflexivity.
Qed.

Lemma combine_NoDup_nth (B C : Type) (l : list B) (l' : list C)
      (i : nat) (x : B) (y y' : C) :
  NoDup l -> In (x, y) (combine l l') ->
  nth_error l i = Some x -> nth_error l' i = Some y' -> y = y'.
Proof.
  intros Hnd. revert l' i.
  induction Hnd as [|b l Hb Hnd IH]; intros [|c l'] i Hin Hl Hl';
    simpl in Hin; try contradiction.
  destruct i as [|i]; simpl in Hl, Hl'.
  - injection Hl as ->. injection Hl' as ->.
    destruct Hin as [Hin|Hin]; [ congruence | ].
    apply in_combine_l in Hin. contradiction.
  - destruct Hin as [Hin|Hin].
    + injection Hin as -> ->. apply nth_error_In in Hl. contradiction.
    + eapply IH; eauto.
Qed.

Lemma init_job_roles_NoDup : NoDup (job_roles init).
Proof.
  apply NoDup_map_inv with (f := title). simpl.
  repeat constructor; simpl; intuition discriminate.
Qed.

Lemma flat_map_length_le (B C : Type) (f : B -> list C) (l : list B) :
  (forall x, List.length (f x) <= 1)%nat ->
  (List.length (flat_map f l) <= List.length l)%nat.
Proof.
  intros H. induction l as [|x l IH]; simpl; [ lia | ].
  rewrite length_app. specialize (H x). lia.
Qed.

(** a course of a catalog of at most three courses that has a missing skill
    is recommended *)
Lemma course_recommended (self : Recommender) (weighted_skills : string)
      (user_skills : list string) (lvl : string) (sims : list R)
      (c : Course) (similarity : R) (rec : CourseRecommendation) :
  (List.length (courses self) <= 3)%nat ->
  course_similarities self weighted_skills = Ok sims ->
  In (c, similarity) (combine (courses self) sims) ->
  In rec (score_course self user_skills lvl (c, similarity)) ->
  exists recs,
    _recommend_courses self weighted_skills user_skills lvl = Ok recs /\
    In rec recs.
Proof.
  intros Hlen Hs Hin Hrec. unfold _recommend_courses. rewrite Hs. cbn [bind].
  eexists. split; [ reflexivity | ].
  apply top_all.
  - eapply Nat.le_trans; [ apply flat_map_length_le, score_course_length | ].
    rewrite length_combine. lia.
  - apply in_flat_map. exists (c, similarity). auto.
Qed.

Lemma init_weight_cases (skill : string) :
  In (dict_get (skill_weights init) skill 1.0%Q) [1.2%Q; 1.1%Q; 1.3%Q; 1.0%Q].
Proof.
  unfold init, skill_weights. cbn [dict_get].
  repeat match goal with
         | |- context [String.eqb ?a skill] => destruct (String.eqb a skill)
         end; simpl; auto.
Qed.

(** for every weight of the table, and for the default, truncating and
    rounding ten times the weight give the same integer *)
Lemma init_int_is_round (skill : string) :
  int (dict_get (skill_weights init) skill 1.0 * 10)%Q
  = round (dict_get (skill_weights init) skill 1.0 * 10)%Q.
Proof.
  destruct (init_weight_cases skill) as [<-|[<-|[<-|[<-|[]]]]]; reflexivity.
Qed.

(** binary64 arithmetic gives the same repeat counts as the rational model *)
Lemma binary64_int_agrees :
  Forall (fun p => Binary64.int_weight_times_ten (fst p) = int (snd p * 10)%Q)
         Binary64.weight_literals /\
  forall skill,
    In (dict_get (skill_weights init) skill 1.0%Q)
       (map snd Binary64.weight_literals).
Proof.
  split.
  - repeat constructor.
  - exact init_weight_cases.
Qed.

Lemma dict_get_absent (V : Type) (d : list (string * V)) (k : string) (default : V) :
  ~ In k (map fst d) -> dict_get d k default = default.
Proof.
  induction d as [|[k' v] d IH]; simpl; intros H; [ reflexivity | ].
  destruct (String.eqb k' k) eqn:E.
  - apply String.eqb_eq in E. exfalso. auto.
  - auto.
Qed.

Lemma init_scores (skills : list string) :
  scores_of init skills =
  [("web_development", overlap skills ["Python"; "Java"; "SQL"; "Git"]);
   ("data_science",
    overlap skills ["Python"; "R"; "Machine Learning"; "Statistics"]);
   ("cloud_devops", overlap skills ["Docker"; "Kubernetes"; "AWS"; "Linux"])].
Proof. reflexivity. Qed.

(** the matcher returns no industry exactly when there is no cluster *)
Lemma industry_match_none (self : Recommender) (skills : list string) :
  _get_industry_match self skills = Ok None <-> industry_clusters self = [].
Proof.
  unfold _get_industry_match. split.
  - destruct (industry_clusters self) as [|e cl]; [ reflexivity | ].
    cbn [mapM]. unfold industry_score at 1.
    destruct (snd e); cbn [bind]; [ discriminate | ].
    destruct (mapM (industry_score skills) cl); cbn [bind]; discriminate.
  - intros ->. reflexivity.
Qed.

(** with no skill in any cluster every score is 0 and the first industry of
    the table is returned *)
Lemma init_no_overlap_match (skill_list : list string) :
  Forall (fun e => common_skills skill_list (snd e) = [])
         (industry_clusters init) ->
  _get_industry_match init skill_list = Ok (Some "web_development").
Proof.
  intros H. rewrite init_industry_match.
  rewrite max_from_head; [ reflexivity | ].
  rewrite Forall_forall in H.
  assert (Hz : forall e, In e (industry_clusters init) ->
                         overlap skill_list (snd e) = (0 # 4)%Q).
  { intros e He. unfold overlap. rewrite (H e He).
    simpl in He. destruct He as [<-|[<-|[<-|[]]]]; reflexivity. }
  pose proof (Hz ("web_development", ["Python"; "Java"; "SQL"; "Git"])) as Hw.
  pose proof (Hz ("data_science",
                  ["Python"; "R"; "Machine Learning"; "Statistics"])) as Hd.
  pose proof (Hz ("cloud_devops",
                  ["Docker"; "Kubernetes"; "AWS"; "Linux"])) as Hc.
  cbn [snd] in Hw, Hd, Hc.
  rewrite Hw, Hd, Hc by (simpl; auto).
  intros x Hx. simpl in Hx.
  destruct Hx as [<-|[<-|[]]]; cbn [snd]; apply Qle_refl.
Qed.

(** the profile [agile_only]: only the first job text has a common token *)
Lemma agile_only_jobs (im : option string) :
  exists similarity,
    0 < similarity /\
    _recommend_jobs init (_apply_skill_weights init ["Agile"]) im =
    Ok [{| job := software_engineer;
           match_score :=
             Rmin (similarity
                   + (if industry_hit init im software_engineer
                      then 0.2 else 0)) 1.0;
           industry_alignment :=
             if industry_hit init im software_engineer then im else None |}].
Proof.
  set (w := _apply_skill_weights init ["Agile"]).
  set (docs := (job_docs init ++ [tokenize w])%list).
  exists (cosine docs (tokenize w) ["python"; "java"; "sql"; "git"; "agile"]).
  split.
  - apply cosine_common with (t := "agile").
    + unfold docs. apply in_or_app. right. simpl. auto.
    + vm_compute. auto.
    + simpl. auto 10.
  - unfold _recommend_jobs. rewrite init_job_similarities. fold docs.
    rewrite init_job_docs. cbn [map bind].
    rewrite (cosine_disjoint_b docs (tokenize w)
               ["python"; "machine"; "learning"; "sql"; "statistics"])
      by (vm_compute; reflexivity).
    rewrite (cosine_disjoint_b docs (tokenize w)
               ["docker"; "kubernetes"; "ci"; "cd"; "aws"; "linux"])
      by (vm_compute; reflexivity).
    change (job_roles init)
      with [software_engineer; data_scientist; devops_engineer].
    cbn [combine flat_map].
    rewrite !score_job_zero, score_job_pos.
    + reflexivity.
    + apply cosine_common with (t := "agile").
      * unfold docs. apply in_or_app. right. simpl. auto.
      * vm_compute. auto.
      * simpl. auto 10.
Qed.

Lemma Ok_inj (B : Type) (a b : B) : Ok a = Ok b -> a = b.
Proof. intros H. now injection H. Qed.

Lemma combine_map_r (B C : Type) (g : B -> C) (l : list B) :
  combine l (map g l) = map (fun x => (x, g x)) l.
Proof.
  induction l as [|x l IH]; simpl; [ reflexivity | now rewrite IH ].
Qed.

Lemma shares_token_false (docs : list (list string)) (q d : list string) :
  shares_token q d = false -> cosine docs q d = 0.
Proof.
  intros H. apply cosine_disjoint. intros t Ht Hd.
  assert (Hs : shares_token q d = true).
  { unfold shares_token. apply existsb_exists. exists t.
    split; [ exact Ht | now apply str_in_In ]. }
  congruence.
Qed.

Lemma shares_token_true (docs : list (list string)) (q d : list string) :
  In q docs -> shares_token q d = true -> 0 < cosine docs q d.
Proof.
  intros Hq H. unfold shares_token in H. apply existsb_exists in H.
  destruct H as [t [Ht Hd]]. apply str_in_In in Hd.
  now apply cosine_common with (t := t).
Qed.

Lemma score_job_length (self : Recommender) (im : option string) (e : JobRole * R) :
  (List.length (score_job self im e) <= 1)%nat.
Proof.
  destruct e as [j s]. unfold score_job.
  destruct (Rlt_dec 0 s); simpl; lia.
Qed.

(** every returned job is scored from its own similarity: the one computed
    for it in [base_similarities] *)
Lemma job_scores_exact (self : Recommender) (weighted_skills : string)
      (im : option string) (recs : list JobRecommendation) :
  _recommend_jobs self weighted_skills im = Ok recs ->
  exists sims,
    job_similarities self weighted_skills = Ok sims /\
    Forall (fun rec =>
              exists similarity,
                In (job rec, similarity) (combine (job_roles self) sims) /\
                0 < similarity /\
                if industry_hit self im (job rec)
                then match_score rec = Rmin (similarity + 0.2) 1.0 /\
                     industry_alignment rec = im
                else match_score rec = Rmin (similarity + 0) 1.0 /\
                     industry_alignment rec = None)
           recs.
Proof.
  intros H. apply recommend_jobs_inv in H. destruct H as [sims [Hs ->]].
  exists sims. split; [ exact Hs | ].
  apply Forall_forall. intros rec Hin.
  apply In_top, in_flat_map in Hin. destruct Hin as [[j sim] [Hc Hrec]].
  apply score_job_inv in Hrec. destruct Hrec as [Hpos ->]. cbn [job].
  exists sim. split; [ exact Hc | ]. split; [ exact Hpos | ].
  destruct (industry_hit self im j); auto.
Qed.

(** in the model, with the catalogs of [__init__], the returned jobs are
    those whose text has a token in common with the weighted skill text *)
Lemma init_job_membership (analyzed_data : AnalyzedData) :
  exists r,
    get_recommendations init analyzed_data = Ok r /\
    forall j,
      In j (map job (job_recommendations r)) <->
      In j (job_roles init) /\
      shares_token
        (tokenize (_apply_skill_weights init (get_skills analyzed_data)))
        (tokenize (String.concat " " (required_skills j))) = true.
Proof.
  destruct (init_total analyzed_data) as [r Hr]. exists r.
  split; [ exact Hr | ].
  destruct (get_recommendations_inv _ _ Hr) as [_ [Hj _]].
  set (w := _apply_skill_weights init (get_skills analyzed_data)) in *.
  apply recommend_jobs_inv in Hj. destruct Hj as [sims [Hs E]].
  rewrite init_job_similarities in Hs. apply Ok_inj in Hs. subst sims.
  unfold job_docs in E at 2. rewrite map_map, combine_map_r in E.
  set (docs := (job_docs init ++ [tokenize w])%list) in *.
  assert (Hq : In (tokenize w) docs)
    by (unfold docs; apply in_or_app; right; simpl; auto).
  intros j. split.
  - intros Hin. apply in_map_iff in Hin. destruct Hin as [rec [Hjob Hin]].
    rewrite E in Hin. apply In_top, in_flat_map in Hin.
    destruct Hin as [[j' sim] [Hc Hrec]].
    apply in_map_iff in Hc. destruct Hc as [j0 [Hc Hj0]].
    injection Hc as -> <-.
    apply score_job_inv in Hrec. destruct Hrec as [Hpos ->].
    cbn [job] in Hjob. subst j'. split; [ exact Hj0 | ].
    destruct (shares_token (tokenize w)
                (tokenize (String.concat " " (required_skills j)))) eqn:Esh;
      [ reflexivity | ].
    rewrite (shares_token_false docs _ _ Esh) in Hpos. lra.
  - intros [Hin Hsh].
    apply (shares_token_true docs) in Hsh; [ | exact Hq ].
    apply in_map_iff.
    eexists. split; [ | rewrite E; apply top_all ].
    2: { eapply Nat.le_trans;
         [ apply flat_map_length_le, score_job_length | ].
         rewrite length_map. simpl. lia. }
    2: { apply in_flat_map. eexists. split.
         - apply in_map_iff. exists j. split; [ reflexivity | exact Hin ].
         - rewrite score_job_pos by exact Hsh. left. reflexivity. }
    reflexivity.
Qed.

Lemma no_shared_token_b (q : list string) (ds : list (list string)) :
  (forall d, In d ds -> shares_token q d = false) ->
  forallb (fun d => forallb (fun t => negb (str_in t d)) q) ds = true.
Proof.
  intros H. apply forallb_forall. intros d Hd. specialize (H d Hd).
  unfold shares_token in H. apply forallb_forall. intros t Ht.
  apply negb_true_iff. destruct (str_in t d) eqn:E; [ | reflexivity ].
  assert (Hex : existsb (fun u => str_in u d) q = true)
    by (apply existsb_exists; eauto).
  congruence.
Qed.

End InitFacts.

(** ** The claims *)

Section Claims.

Local Open Scope R_scope.

(** C1: for every candidate profile [get_recommendations] returns, the
    job list has at most 3 entries, each with a [match_score] in [0,1],
    and the course list has at most 3 entries. *)
Theorem recommendation_lists_bounded (analyzed_data : AnalyzedData) :
  exists r,
    get_recommendations init analyzed_data = Ok r /\
    (List.length (job_recommendations r) <= 3)%nat /\
    Forall (fun j => 0 <= match_score j <= 1) (job_recommendations r) /\
    (List.length (course_recommendations r) <= 3)%nat.
Proof.
  destruct (init_total analyzed_data) as [r Hr]. exists r.
  split; [ exact Hr | ].
  destruct (get_recommendations_inv _ _ Hr) as [_ [Hj Hc]].
  repeat split.
  - apply recommend_jobs_inv in Hj. destruct Hj as [sims [_ ->]].
    apply top3_length.
  - apply Forall_forall. intros j Hin.
    eapply match_score_bounds; eauto.
  - apply recommend_courses_inv in Hc. destruct Hc as [sims [_ ->]].
    apply top3_length.
Qed.

(** C2: every course returned by [get_recommendations] has a non-empty
    [missing_skills] list, which is the list of its skills the candidate
    lacks; so a recommended course always teaches a skill that is not in the
    candidate's skill set, and a course whose skills the candidate all has
    is never recommended. *)
Theorem recommended_courses_have_missing_skills (analyzed_data : AnalyzedData) :
  exists r,
    get_recommendations init analyzed_data = Ok r /\
    Forall (fun rec =>
              missing_skills rec <> [] /\
              missing_skills rec
              = missing_of (get_skills analyzed_data) (course rec) /\
              exists skill,
                In skill (course_skills (course rec)) /\
                ~ In skill (get_skills analyzed_data))
           (course_recommendations r).
Proof.
  destruct (init_total analyzed_data) as [r Hr]. exists r.
  split; [ exact Hr | ].
  destruct (get_recommendations_inv _ _ Hr) as [_ [_ Hc]].
  apply recommend_courses_inv in Hc. destruct Hc as [sims [_ ->]].
  apply Forall_forall. intros rec Hin.
  apply In_top, in_flat_map in Hin. destruct Hin as [[c sim] [_ Hrec]].
  apply score_course_inv in Hrec. destruct Hrec as [Hm ->]. simpl.
  repeat split; auto.
  destruct (missing_of (get_skills analyzed_data) c) as [|skill ms] eqn:E;
    [ congruence | ].
  assert (Hs : In skill (missing_of (get_skills analyzed_data) c))
    by (rewrite E; simpl; auto).
  apply filter_In in Hs. destruct Hs as [Hs Hn].
  exists skill. split; [ exact Hs | ].
  apply negb_true_iff in Hn. now apply str_in_false.
Qed.

(** C3, as stated, fails in its second half: [["Machine Shop"]] is no
    required skill of any job, yet the Data Scientist role is recommended,
    through the word "machine" of "Machine Learning". *)
Lemma no_skill_overlap_yet_job :
  Forall (fun j => common_skills ["Machine Shop"] (required_skills j) = [])
         (job_roles init) /\
  exists r,
    get_recommendations init machinist = Ok r /\
    In data_scientist (map job (job_recommendations r)) /\
    job_recommendations r <> [].
Proof.
  split; [ repeat constructor | ].
  destruct (init_job_membership machinist) as [r [Hr Hiff]]. exists r.
  split; [ exact Hr | ].
  assert (Hin : In data_scientist (map job (job_recommendations r))).
  { apply Hiff. split; [ simpl; auto | vm_compute; reflexivity ]. }
  split; [ exact Hin | ].
  intros E. rewrite E in Hin. exact Hin.
Qed.

(** C3, amended: a job role whose similarity to the weighted skill text is
    0 is not in [job_recommendations] at all; for ASCII skills the job list
    is empty exactly when the weighted text has no token (a lower-cased
    word of two or more characters) in common with any job text, and then
    every similarity is 0; the skill list [["Welding"]] is such a case. *)
Theorem zero_similarity_jobs_excluded :
  (forall analyzed_data r sims idx j,
      get_recommendations init analyzed_data = Ok r ->
      job_similarities
        init (_apply_skill_weights init (get_skills analyzed_data)) = Ok sims ->
      nth_error (job_roles init) idx = Some j ->
      nth_error sims idx = Some 0 ->
      ~ In j (map job (job_recommendations r))) /\
  (forall analyzed_data,
      Forall (fun skill => ascii_only skill = true) (get_skills analyzed_data) ->
      exists r,
        get_recommendations init analyzed_data = Ok r /\
        (job_recommendations r = [] <->
         forall j,
           In j (job_roles init) ->
           shares_token
             (tokenize (_apply_skill_weights init (get_skills analyzed_data)))
             (tokenize (String.concat " " (required_skills j))) = false) /\
        (job_recommendations r = [] ->
         job_similarities
           init (_apply_skill_weights init (get_skills analyzed_data))
         = Ok [0; 0; 0])) /\
  (exists r,
      get_recommendations init welder = Ok r /\
      job_similarities
        init (_apply_skill_weights init (get_skills welder)) = Ok [0; 0; 0] /\
      job_recommendations r = []).
Proof.
  split; [ | split ].
  - intros analyzed_data r sims idx j Hr Hs Hj Hz Hin.
    destruct (get_recommendations_inv _ _ Hr) as [_ [Hjobs _]].
    apply recommend_jobs_inv in Hjobs. destruct Hjobs as [sims' [Hs' Hrecs]].
    rewrite Hs in Hs'. injection Hs' as <-.
    apply in_map_iff in Hin. destruct Hin as [rec [Hjob Hin]].
    rewrite Hrecs in Hin.
    apply In_top, in_flat_map in Hin. destruct Hin as [[j' sim] [Hc Hrec]].
    apply score_job_inv in Hrec. destruct Hrec as [Hpos ->].
    simpl in Hjob. subst j'.
    assert (sim = 0)
      by (eapply combine_NoDup_nth; eauto using init_job_roles_NoDup).
    lra.
  - intros analyzed_data _.
    destruct (init_job_membership analyzed_data) as [r [Hr Hiff]]. exists r.
    set (w := _apply_skill_weights init (get_skills analyzed_data)) in *.
    assert (Hempty :
              job_recommendations r = [] <->
              forall j,
                In j (job_roles init) ->
                shares_token
                  (tokenize w)
                  (tokenize (String.concat " " (required_skills j))) = false).
    { split.
      - intros E j Hj. apply not_true_is_false. intros Hsh.
        assert (Hin : In j (map job (job_recommendations r)))
          by (apply Hiff; auto).
        rewrite E in Hin. exact Hin.
      - intros Hno. destruct (job_recommendations r) as [|rec recs] eqn:E;
          [ reflexivity | ].
        assert (Hin : In (job rec) (map job (rec :: recs)))
          by (simpl; auto).
        apply Hiff in Hin. destruct Hin as [Hj Hsh].
        rewrite (Hno _ Hj) in Hsh. discriminate. }
    split; [ exact Hr | ].
    split; [ exact Hempty | ].
    intros E. apply (no_common_token_no_job w None).
    apply no_shared_token_b. intros d Hd.
    unfold job_docs in Hd. apply in_map_iff in Hd.
    destruct Hd as [j [<- Hj]]. exact (proj1 Hempty E j Hj).
  - destruct (init_total welder) as [r Hr]. exists r.
    split; [ exact Hr | ].
    destruct (get_recommendations_inv _ _ Hr) as [_ [Hjobs _]].
    destruct (no_common_token_no_job
                (_apply_skill_weights init (get_skills welder))
                (matched_industry r)) as [Hs Hnone];
      [ vm_compute; reflexivity | ].
    split; [ exact Hs | congruence ].
Qed.

(** C3 amended, at the profile [welder] and the first job role *)
Lemma zero_similarity_jobs_excluded_witness :
  (exists r,
      get_recommendations init welder = Ok r /\
      job_similarities init (_apply_skill_weights init (get_skills welder))
      = Ok [0; 0; 0] /\
      nth_error (job_roles init) 0 = Some software_engineer /\
      nth_error [0; 0; 0] 0 = Some 0 /\
      ~ In software_engineer (map job (job_recommendations r))) /\
  Forall (fun skill => ascii_only skill = true) (get_skills welder) /\
  exists r,
    get_recommendations init welder = Ok r /\
    (job_recommendations r = [] <->
     forall j,
       In j (job_roles init) ->
       shares_token
         (tokenize (_apply_skill_weights init (get_skills welder)))
         (tokenize (String.concat " " (required_skills j))) = false).
Proof.
  split; [ | split ].
  - destruct (init_total welder) as [r Hr]. exists r.
    assert (Hs : job_similarities
                   init (_apply_skill_weights init (get_skills welder))
                 = Ok [0; 0; 0])
      by (apply no_common_token_no_job;
          [ exact None | vm_compute; reflexivity ]).
    split; [ exact Hr | ].
    split; [ exact Hs | ].
    split; [ reflexivity | ].
    split; [ reflexivity | ].
    apply (proj1 zero_similarity_jobs_excluded welder r [0; 0; 0] 0%nat).
    + exact Hr.
    + exact Hs.
    + reflexivity.
    + reflexivity.
  - repeat constructor.
  - assert (Ha : Forall (fun skill => ascii_only skill = true)
                        (get_skills welder)) by (repeat constructor).
    destruct (proj1 (proj2 zero_similarity_jobs_excluded) welder Ha)
      as [r [Hr [Hiff _]]].
    exists r. split; [ exact Hr | exact Hiff ].
Defined.

(** C8: with an empty skill list the weighted text is the empty string, every
    job and course similarity is 0, and [get_recommendations] returns (it
    does not raise) a result without jobs whose courses all have relevance 0;
    this for any experience level and industry preference, and also when
    the key [skills] is absent. *)
Theorem empty_skills_degrade (lvl pref : option string) :
  _apply_skill_weights init [] = "" /\
  job_similarities init "" = Ok [0; 0; 0] /\
  course_similarities init "" = Ok [0; 0; 0] /\
  (exists r,
      get_recommendations init (profile [] lvl pref) = Ok r /\
      job_recommendations r = [] /\
      Forall (fun rec => relevance_score rec = 0) (course_recommendations r)) /\
  get_recommendations
    init {| skills := None; experience_level := lvl;
            industry_preference := pref |}
  = get_recommendations init (profile [] lvl pref).
Proof.
  assert (Hj : forall im, job_similarities init "" = Ok [0; 0; 0] /\
                          _recommend_jobs init "" im = Ok [])
    by (intros im; apply no_common_token_no_job; vm_compute; reflexivity).
  assert (Hc : course_similarities init "" = Ok [0; 0; 0])
    by (apply no_common_token_course_similarities; vm_compute; reflexivity).
  split; [ reflexivity | ].
  split; [ apply (Hj None) | ].
  split; [ exact Hc | ].
  split; [ | reflexivity ].
  destruct (init_total (profile [] lvl pref)) as [r Hr]. exists r.
  split; [ exact Hr | ].
  destruct (get_recommendations_inv _ _ Hr) as [_ [Hjobs Hcs]].
  change (get_skills (profile [] lvl pref)) with (@nil string) in Hjobs, Hcs.
  change (_apply_skill_weights init []) with "" in Hjobs, Hcs.
  split.
  - rewrite (proj2 (Hj (matched_industry r))) in Hjobs. congruence.
  - apply recommend_courses_inv in Hcs. destruct Hcs as [sims [Hs ->]].
    rewrite Hc in Hs. injection Hs as <-.
    apply Forall_forall. intros rec Hin.
    apply In_top, in_flat_map in Hin. destruct Hin as [[c sim] [Hcomb Hrec]].
    apply score_course_inv in Hrec. destruct Hrec as [_ ->]. simpl.
    assert (sim = 0).
    { apply in_combine_r in Hcomb. simpl in Hcomb.
      destruct Hcomb as [H|[H|[H|[]]]]; auto. }
    subst sim. ring.
Qed.

(** C6: for every skill list, [_apply_skill_weights] returns the space-join
    of each skill repeated [round(w * 10)] times, [w] being the skill's
    weight in the table, 1.0 when it has none; a skill without a weight is
    repeated 10 times. *)
Theorem skill_weighting_repeats (skill_list : list string) :
  _apply_skill_weights init skill_list = weight_by_rounding init skill_list /\
  forall skill,
    ~ In skill (map fst (skill_weights init)) ->
    dict_get (skill_weights init) skill 1.0%Q = 1.0%Q /\
    _apply_skill_weights init [skill] = String.concat " " (repeat skill 10).
Proof.
  split.
  - unfold _apply_skill_weights, weight_by_rounding. f_equal.
    apply flat_map_ext. intros skill. now rewrite init_int_is_round.
  - intros skill Habs.
    assert (E : dict_get (skill_weights init) skill 1.0%Q = 1.0%Q)
      by now apply dict_get_absent.
    split; [ exact E | ].
    unfold _apply_skill_weights. cbn [flat_map]. rewrite E, app_nil_r.
    reflexivity.
Qed.

(** C6 at the unweighted skill [Go] *)
Lemma skill_weighting_repeats_witness :
  ~ In "Go" (map fst (skill_weights init)) /\
  _apply_skill_weights init ["Go"] = "Go Go Go Go Go Go Go Go Go Go" /\
  _apply_skill_weights init ["Python"; "Go"]
  = weight_by_rounding init ["Python"; "Go"].
Proof.
  assert (H : ~ In "Go" (map fst (skill_weights init))).
  { simpl. intuition discriminate. }
  split; [ exact H | ].
  split.
  - exact (proj2 (proj2 (skill_weighting_repeats []) "Go" H)).
  - exact (proj1 (skill_weighting_repeats ["Python"; "Go"])).
Defined.

(** C9: the Industry Matcher is a function of the skill list and of the
    cluster table alone (two recommender objects with the same clusters
    answer alike), and among the industries of maximal score it returns the
    first in the declared order: every industry before it has a strictly
    smaller score, every industry after it a score not greater. *)
Theorem industry_match_deterministic (skill_list : list string) :
  (forall self1 self2,
      industry_clusters self1 = industry_clusters self2 ->
      _get_industry_match self1 skill_list = _get_industry_match self2 skill_list) /\
  exists before name score after,
    scores_of init skill_list = (before ++ (name, score) :: after)%list /\
    _get_industry_match init skill_list = Ok (Some name) /\
    Forall (fun e => (snd e < score)%Q) before /\
    Forall (fun e => (snd e <= score)%Q) after.
Proof.
  split.
  - intros self1 self2 E. unfold _get_industry_match. now rewrite E.
  - rewrite init_industry_match, init_scores.
    set (first := ("web_development",
                   overlap skill_list ["Python"; "Java"; "SQL"; "Git"])).
    set (rest := [("data_science", _); ("cloud_devops", _)]).
    destruct (max_from_first snd rest [] [] first)
      as [l1 [l2 [Heq [H1 H2]]]]; try (intros x []).
    exists l1, (fst (max_from snd first rest)),
      (snd (max_from snd first rest)), l2.
    rewrite <- surjective_pairing.
    repeat split.
    + exact Heq.
    + now apply Forall_forall.
    + now apply Forall_forall.
Qed.

(** C9 at a three-way tie: one skill of each cluster *)
Lemma industry_match_deterministic_witness :
  industry_clusters init
  = industry_clusters
      {| skill_weights := []; industry_clusters := industry_clusters init;
         job_roles := []; courses := [] |} /\
  _get_industry_match init ["Docker"; "R"; "Git"]
  = _get_industry_match
      {| skill_weights := []; industry_clusters := industry_clusters init;
         job_roles := []; courses := [] |} ["Docker"; "R"; "Git"] /\
  _get_industry_match init ["Docker"; "R"; "Git"] = Ok (Some "web_development").
Proof.
  split; [ reflexivity | ].
  split.
  - apply (proj1 (industry_match_deterministic ["Docker"; "R"; "Git"])).
    reflexivity.
  - reflexivity.
Defined.

(** C4, as stated, fails: [["Agile"]] meets no cluster, yet the matcher
    returns "web_development", and the one recommended job carries the 0.2
    bonus and that industry as its alignment. *)
Lemma no_overlap_still_matched :
  Forall (fun e => common_skills ["Agile"] (snd e) = [])
         (industry_clusters init) /\
  _get_industry_match init ["Agile"] = Ok (Some "web_development") /\
  _get_industry_match init ["Agile"] <> Ok None /\
  exists r similarity,
    get_recommendations init agile_only = Ok r /\
    matched_industry r = Some "web_development" /\
    0 < similarity /\
    job_recommendations r =
    [{| job := software_engineer;
        match_score := Rmin (similarity + 0.2) 1.0;
        industry_alignment := Some "web_development" |}].
Proof.
  assert (Hm : _get_industry_match init ["Agile"] = Ok (Some "web_development"))
    by reflexivity.
  split; [ repeat constructor | ].
  split; [ exact Hm | ].
  split; [ rewrite Hm; discriminate | ].
  destruct (agile_only_jobs (Some "web_development")) as [sim [Hpos Hj]].
  destruct (init_total agile_only) as [r Hr].
  exists r, sim.
  destruct (get_recommendations_inv _ _ Hr) as [Hi [Hjobs _]].
  assert (E : matched_industry r = Some "web_development").
  { unfold industry_step in Hi. cbn in Hi. congruence. }
  split; [ exact Hr | ].
  split; [ exact E | ].
  split; [ exact Hpos | ].
  rewrite E in Hjobs.
  change (get_skills agile_only) with ["Agile"] in Hjobs.
  rewrite Hj in Hjobs. injection Hjobs as <-.
  change (industry_hit init (Some "web_development") software_engineer)
    with true.
  reflexivity.
Qed.

(** C4, amended: when no skill is in any cluster the matcher returns the
    first industry of the table, "web_development" (it returns no industry
    only for an empty table), and [get_recommendations] reports it as the
    matched industry.  The bonus is applied downstream: every recommended
    job is scored from its own similarity, the positive one computed for it
    against the weighted skills; a job with a required skill in that cluster
    (Software Engineer, Data Scientist) scores [min(similarity + 0.2, 1)]
    and carries the industry as its alignment, any other job (DevOps
    Engineer) scores [min(similarity + 0, 1)] and carries none. *)
Theorem no_overlap_falls_to_first_industry
        (skill_list : list string) (lvl : option string) :
  Forall (fun e => common_skills skill_list (snd e) = [])
         (industry_clusters init) ->
  _get_industry_match init skill_list = Ok (Some "web_development") /\
  (forall self l,
      _get_industry_match self l = Ok None <-> industry_clusters self = []) /\
  map (industry_hit init (Some "web_development")) (job_roles init)
  = [true; true; false] /\
  exists r sims,
    get_recommendations init (profile skill_list lvl None) = Ok r /\
    matched_industry r = Some "web_development" /\
    job_similarities init (_apply_skill_weights init skill_list) = Ok sims /\
    Forall (fun rec =>
              exists similarity,
                In (job rec, similarity) (combine (job_roles init) sims) /\
                0 < similarity /\
                if industry_hit init (Some "web_development") (job rec)
                then match_score rec = Rmin (similarity + 0.2) 1.0 /\
                     industry_alignment rec = Some "web_development"
                else match_score rec = Rmin (similarity + 0) 1.0 /\
                     industry_alignment rec = None)
           (job_recommendations r).
Proof.
  intros H.
  assert (Hm := init_no_overlap_match skill_list H).
  split; [ exact Hm | ].
  split; [ exact industry_match_none | ].
  split; [ reflexivity | ].
  destruct (init_total (profile skill_list lvl None)) as [r Hr]. exists r.
  destruct (get_recommendations_inv _ _ Hr) as [Hi [Hj _]].
  assert (E : matched_industry r = Some "web_development").
  { change (industry_step init (profile skill_list lvl None))
      with (_get_industry_match init skill_list) in Hi.
    congruence. }
  rewrite E in Hj. apply job_scores_exact in Hj.
  destruct Hj as [sims [Hs Hall]]. exists sims.
  split; [ exact Hr | ].
  split; [ exact E | ].
  split; [ exact Hs | exact Hall ].
Qed.

(** C4 amended, at the skill list [["Agile"]], which gets a job *)
Lemma no_overlap_falls_to_first_industry_witness :
  Forall (fun e => common_skills ["Agile"] (snd e) = [])
         (industry_clusters init) /\
  _get_industry_match init ["Agile"] = Ok (Some "web_development") /\
  exists r sims,
    get_recommendations init agile_only = Ok r /\
    matched_industry r = Some "web_development" /\
    job_similarities init (_apply_skill_weights init ["Agile"]) = Ok sims /\
    map job (job_recommendations r) = [software_engineer] /\
    Forall (fun rec =>
              exists similarity,
                In (job rec, similarity) (combine (job_roles init) sims) /\
                0 < similarity /\
                if industry_hit init (Some "web_development") (job rec)
                then match_score rec = Rmin (similarity + 0.2) 1.0 /\
                     industry_alignment rec = Some "web_development"
                else match_score rec = Rmin (similarity + 0) 1.0 /\
                     industry_alignment rec = None)
           (job_recommendations r).
Proof.
  assert (H : Forall (fun e => common_skills ["Agile"] (snd e) = [])
                     (industry_clusters init)) by (repeat constructor).
  split; [ exact H | ].
  destruct (no_overlap_falls_to_first_industry ["Agile"] None H)
    as [Hm [_ [_ [r [sims [Hr [E [Hs Hall]]]]]]]].
  split; [ exact Hm | ].
  exists r, sims.
  split; [ exact Hr | ].
  split; [ exact E | ].
  split; [ exact Hs | ].
  split; [ | exact Hall ].
  destruct (get_recommendations_inv _ _ Hr) as [_ [Hj _]].
  destruct (agile_only_jobs (matched_industry r)) as [sim [_ Hjobs]].
  change (get_skills (profile ["Agile"] None None)) with ["Agile"] in Hj.
  rewrite Hjobs in Hj. apply Ok_inj in Hj. rewrite <- Hj. reflexivity.
Defined.




(** C7: what the code returns for Docker, Kubernetes, AWS at level
    "beginner".  All three courses are recommended and each carries
    [experience_match = false]: the flag is the exact comparison of the
    course level with the caller's string, and "Beginner" is not "beginner",
    although the ordinal mapping next to it takes the two for the same level. *)
Theorem cloud_beginner_experience_match :
  exists r,
    get_recommendations init cloud_beginner = Ok r /\
    Permutation
      (map (fun rec => (course rec, experience_match rec))
           (course_recommendations r))
      [(python_masterclass, false); (ml_fundamentals, false);
       (cloud_essentials, false)] /\
    Forall (fun rec =>
              experience_match rec
              = String.eqb (level (course rec))
                           (get_experience_level cloud_beginner))
           (course_recommendations r) /\
    String.eqb (level cloud_essentials) "beginner" = false /\
    experience_ordinal (level cloud_essentials) = experience_ordinal "beginner".
Proof.
  destruct (init_total cloud_beginner) as [r Hr]. exists r.
  split; [ exact Hr | ].
  destruct (get_recommendations_inv _ _ Hr) as [_ [_ Hc]].
  apply recommend_courses_inv in Hc. destruct Hc as [sims [Hs Hrecs]].
  rewrite init_course_similarities, init_course_docs in Hs.
  cbn [map] in Hs. injection Hs as <-.
  change (courses init)
    with [python_masterclass; ml_fundamentals; cloud_essentials] in Hrecs.
  cbn [combine flat_map] in Hrecs.
  rewrite !score_course_missing in Hrecs by (vm_compute; discriminate).
  cbn [app] in Hrecs.
  rewrite firstn_all2 in Hrecs by (rewrite sort_desc_length; simpl; lia).
  rewrite Hrecs.
  split; [ | split; [ | split; reflexivity ] ].
  - eapply perm_trans; [ apply Permutation_map, sort_desc_perm | ].
    apply Permutation_refl.
  - apply Forall_forall. intros rec Hin. apply sort_desc_In in Hin.
    destruct Hin as [<-|[<-|[<-|[]]]]; reflexivity.
Qed.

(** C10: the course loop has no test on the similarity.  For the profile
    [welder] every course similarity is 0 and the first course of the catalog
    is recommended all the same, with its three skills missing, relevance 0
    and a sort key that is 0.3 times its skill importance; the job list of
    the same result is empty. *)
Theorem zero_similarity_course_recommended :
  exists r rec,
    get_recommendations init welder = Ok r /\
    course_similarities init (_apply_skill_weights init (get_skills welder))
    = Ok [0; 0; 0] /\
    nth_error (courses init) 0 = Some python_masterclass /\
    In rec (course_recommendations r) /\
    course rec = python_masterclass /\
    missing_skills rec = ["Python"; "Data Structures"; "Algorithms"] /\
    relevance_score rec = 0 /\
    course_key rec = Q2R (skill_importance rec) * 0.3 /\
    job_recommendations r = [].
Proof.
  destruct (init_total welder) as [r Hr].
  destruct (get_recommendations_inv _ _ Hr) as [_ [Hj Hc]].
  set (w := _apply_skill_weights init (get_skills welder)) in *.
  assert (Hs : course_similarities init w = Ok [0; 0; 0])
    by (apply no_common_token_course_similarities; vm_compute; reflexivity).
  assert (Hm : missing_of (get_skills welder) python_masterclass
               = ["Python"; "Data Structures"; "Algorithms"]) by reflexivity.
  assert (Hne : missing_of (get_skills welder) python_masterclass <> [])
    by (rewrite Hm; discriminate).
  pose proof (score_course_missing init (get_skills welder)
                (get_experience_level welder) python_masterclass 0 Hne)
    as Hsc.
  destruct (course_recommended init w (get_skills welder)
              (get_experience_level welder) (sims := [0; 0; 0])
              python_masterclass 0
              ({| course := python_masterclass;
                         missing_skills :=
                           missing_of (get_skills welder) python_masterclass;
                         relevance_score :=
                           0 * (1 - 0.2
                                    * IZR (Z.abs
                                             (experience_ordinal
                                                (level python_masterclass)
                                              - experience_ordinal
                                                  (get_experience_level welder))));
                         skill_importance :=
                           mean_weight init
                             (missing_of (get_skills welder) python_masterclass);
                         experience_match :=
                           String.eqb (level python_masterclass)
                                      (get_experience_level welder) |}))
    as [recs [Hrecs Hin]].
  - simpl. lia.
  - exact Hs.
  - simpl. auto.
  - rewrite Hsc. simpl. auto.
  - rewrite Hc in Hrecs. injection Hrecs as <-.
    eexists r, _. split; [ exact Hr | ].
    split; [ exact Hs | ].
    split; [ reflexivity | ].
    split; [ exact Hin | ].
    split; [ reflexivity | ].
    split; [ exact Hm | ].
    split; [ cbn [relevance_score]; ring | ].
    split; [ unfold course_key; cbn [relevance_score skill_importance]; ring | ].
    destruct (no_common_token_no_job w (matched_industry r)) as [_ Hnone];
      [ vm_compute; reflexivity | ].
    congruence.
Qed.

End Claims.


(** ** Further properties: the similarity ranker *)

Section SimilarityFacts.

Local Open Scope R_scope.

(** when fitting and comparing returns, it returns the cosines of the query
    against each text *)
Lemma query_similarities_inv (texts : list string) (query : string) (sims : list R) :
  bind (fit_transform (texts ++ [query])%list) last_against_rest = Ok sims ->
  sims = map (fun text =>
                cosine (map tokenize (texts ++ [query])%list)
                       (tokenize query) (tokenize text)) texts.
Proof.
  intros H.
  destruct texts as [|text texts].
  - exfalso. revert H. unfold fit_transform. cbn [app map].
    destruct (vocabulary [tokenize query]); cbn [bind]; [ discriminate | ].
    unfold last_against_rest. cbn. discriminate.
  - destruct (vocabulary (map tokenize ((text :: texts) ++ [query])%list))
      as [|t V] eqn:E.
    + exfalso. revert H. unfold fit_transform. rewrite E. discriminate.
    + rewrite query_similarities in H.
      * now injection H as <-.
      * discriminate.
      * rewrite E. discriminate.
Qed.

Lemma cosines_nonneg (docs : list (list string)) (q : list string)
      (A : Type) (f : A -> list string) (l : list A) :
  Forall (fun s => 0 <= s) (map (fun x => cosine docs q (f x)) l).
Proof.
  apply Forall_forall. intros s Hs. apply in_map_iff in Hs.
  destruct Hs as [x [<- _]]. apply cosine_nonneg.
Qed.

(** X1: on any recommender object, when the similarity step returns, it
    returns one similarity per catalog entry (job or course), so that
    [self.job_roles[idx]] and [self.courses[idx]] are always in range, and no
    similarity is negative. *)
Theorem similarities_per_entry_nonnegative
        (self : Recommender) (weighted_skills : string) :
  (forall sims,
      job_similarities self weighted_skills = Ok sims ->
      List.length sims = List.length (job_roles self) /\
      Forall (fun s => 0 <= s) sims) /\
  (forall sims,
      course_similarities self weighted_skills = Ok sims ->
      List.length sims = List.length (courses self) /\
      Forall (fun s => 0 <= s) sims).
Proof.
  split; intros sims H.
  - unfold job_similarities in H. apply query_similarities_inv in H.
    subst sims. rewrite !length_map. split; [ reflexivity | ].
    rewrite map_map. apply cosines_nonneg.
  - unfold course_similarities in H. apply query_similarities_inv in H.
    subst sims. rewrite !length_map. split; [ reflexivity | ].
    rewrite map_map. apply cosines_nonneg.
Qed.

(** X1 at the job catalog and the weighted text of [agile_only] *)
Lemma similarities_per_entry_nonnegative_witness :
  exists sims,
    job_similarities init (_apply_skill_weights init ["Agile"]) = Ok sims /\
    List.length sims = 3%nat /\
    Forall (fun s => 0 <= s) sims.
Proof.
  eexists. split; [ apply init_job_similarities | ].
  exact (proj1 (similarities_per_entry_nonnegative
                  init (_apply_skill_weights init ["Agile"]))
               _ (init_job_similarities _)).
Defined.

End SimilarityFacts.

(** ** Further properties: ranking *)

Section Ranking.

Local Open Scope R_scope.

Variable A : Type.
Variable key : A -> R.

Lemma insert_desc_sorted (x : A) (l : list A) :
  StronglySorted (fun a b => key b <= key a) l ->
  StronglySorted (fun a b => key b <= key a) (insert_desc key x l).
Proof.
  induction 1 as [|y l Hs IH Hy]; simpl.
  - constructor; constructor.
  - destruct (Rlt_dec (key x) (key y)) as [Hlt|Hge].
    + constructor; [ exact IH | ].
      apply Forall_forall. intros z Hz.
      apply (Permutation_in _ (insert_desc_perm key x l)) in Hz.
      destruct Hz as [<-|Hz]; [ lra | ].
      rewrite Forall_forall in Hy. auto.
    + constructor; [ constructor; assumption | ].
      constructor; [ lra | ].
      apply Forall_forall. intros z Hz. rewrite Forall_forall in Hy.
      specialize (Hy z Hz). lra.
Qed.

Lemma sort_desc_sorted (l : list A) :
  StronglySorted (fun a b => key b <= key a) (sort_desc key l).
Proof.
  induction l as [|x l IH]; simpl; [ constructor | ].
  now apply insert_desc_sorted.
Qed.

Lemma firstn_sorted (rel : A -> A -> Prop) (n : nat) (l : list A) :
  StronglySorted rel l -> StronglySorted rel (firstn n l).
Proof.
  intros H. revert n. induction H as [|x l Hs IH Hx]; intros [|n]; simpl;
    try constructor.
  - apply IH.
  - apply Forall_forall. intros y Hy. apply In_firstn_In in Hy.
    rewrite Forall_forall in Hx. auto.
Qed.

(** among items of one key, sorting changes nothing: it is stable *)
Lemma insert_desc_stable (v : R) (x : A) (l : list A) :
  StronglySorted (fun a b => key b <= key a) l ->
  filter (fun a => if Req_dec_T (key a) v then true else false)
         (insert_desc key x l)
  = filter (fun a => if Req_dec_T (key a) v then true else false) (x :: l).
Proof.
  induction 1 as [|y l Hs IH Hy]; [ reflexivity | ].
  cbn [insert_desc]. destruct (Rlt_dec (key x) (key y)) as [Hlt|Hge];
    [ | reflexivity ].
  cbn [filter] in *. rewrite IH.
  destruct (Req_dec_T (key x) v) as [Ex|Ex];
    destruct (Req_dec_T (key y) v) as [Ey|Ey]; try reflexivity.
  lra.
Qed.

Lemma sort_desc_stable (v : R) (l : list A) :
  filter (fun a => if Req_dec_T (key a) v then true else false)
         (sort_desc key l)
  = filter (fun a => if Req_dec_T (key a) v then true else false) l.
Proof.
  induction l as [|x l IH]; [ reflexivity | ].
  cbn [sort_desc fold_right]. fold (sort_desc key l).
  rewrite insert_desc_stable by apply sort_desc_sorted.
  cbn [filter]. now rewrite IH.
Qed.

End Ranking.

Section RankingOfRecommendations.

Local Open Scope R_scope.

Lemma before_firstn (A : Type) (a b : A) (n : nat) (l : list A) :
  before a b (firstn n l) -> before a b l.
Proof.
  intros [l1 [l2 [l3 E]]]. exists l1, l2, (l3 ++ skipn n l)%list.
  rewrite <- (firstn_skipn n l) at 1. rewrite E.
  rewrite <- !app_assoc. cbn [app]. rewrite <- !app_assoc. reflexivity.
Qed.

Lemma before_filter (A : Type) (p : A -> bool) (a b : A) (l : list A) :
  before a b l -> p a = true -> p b = true -> before a b (filter p l).
Proof.
  intros [l1 [l2 [l3 ->]]] Ha Hb.
  exists (filter p l1), (filter p l2), (filter p l3).
  rewrite filter_app. cbn [filter]. rewrite Ha, filter_app. cbn [filter].
  now rewrite Hb.
Qed.

Lemma filter_split (A : Type) (p : A -> bool) (a : A) (l m1 m2 : list A) :
  filter p l = (m1 ++ a :: m2)%list ->
  exists l1 l2, l = (l1 ++ a :: l2)%list /\ filter p l2 = m2.
Proof.
  revert m1. induction l as [|x l IH]; intros m1 E; cbn [filter] in E.
  - destruct m1; discriminate.
  - destruct (p x) eqn:Hx.
    + destruct m1 as [|y m1]; cbn [app] in E.
      * injection E as -> E. exists [], l. auto.
      * injection E as -> E. destruct (IH _ E) as [l1 [l2 [-> H]]].
        exists (y :: l1), l2. auto.
    + destruct (IH _ E) as [l1 [l2 [-> H]]]. exists (x :: l1), l2. auto.
Qed.

Lemma before_of_filter (A : Type) (p : A -> bool) (a b : A) (l : list A) :
  before a b (filter p l) -> before a b l.
Proof.
  intros [m1 [m2 [m3 E]]].
  destruct (@filter_split _ p _ _ _ _ E) as [l1 [l2 [-> E2]]].
  destruct (@filter_split _ p _ _ _ _ E2) as [l3 [l4 [-> _]]].
  now exists l1, l3, l4.
Qed.

Lemma before_map (A B : Type) (f : A -> B) (a b : A) (l : list A) :
  before a b l -> before (f a) (f b) (map f l).
Proof.
  intros [l1 [l2 [l3 ->]]]. exists (map f l1), (map f l2), (map f l3).
  rewrite map_app. cbn [map]. rewrite map_app. reflexivity.
Qed.

Lemma before_cons (A : Type) (x a b : A) (l : list A) :
  before a b l -> before a b (x :: l).
Proof.
  intros [l1 [l2 [l3 ->]]]. now exists (x :: l1), l2, l3.
Qed.

Lemma before_head (A : Type) (a b : A) (l : list A) :
  In b l -> before a b (a :: l).
Proof.
  intros H. apply in_split in H. destruct H as [l2 [l3 ->]].
  now exists [], l2, l3.
Qed.

(** the candidates of a loop that appends at most one record per entry,
    carrying the entry, come in the order of the catalog *)
Lemma candidates_in_catalog_order (A B : Type) (f : A * R -> list B) (g : B -> A) :
  (forall e b, In b (f e) -> g b = fst e) ->
  (forall e, List.length (f e) <= 1)%nat ->
  forall (l : list A) (sims : list R),
    (forall x, In x (map g (flat_map f (combine l sims))) -> In x l) /\
    (forall x y, before x y (map g (flat_map f (combine l sims))) ->
                 before x y l).
Proof.
  intros Hg Hlen. induction l as [|a l IH]; intros [|s sims]; cbn [combine flat_map map].
  - split; [ intros x [] | ]. intros x y [[|? ?] [? [? E]]]; discriminate.
  - split; [ intros x [] | ]. intros x y [[|? ?] [? [? E]]]; discriminate.
  - split; [ intros x [] | ]. intros x y [[|? ?] [? [? E]]]; discriminate.
  - destruct (IH sims) as [IHin IHb].
    specialize (Hlen (a, s)).
    destruct (f (a, s)) as [|r [|r' rs]] eqn:E; cbn [app map]; cbn in Hlen.
    + split.
      * intros x Hx. right. auto.
      * intros x y Hb. apply before_cons. auto.
    + assert (Hr : g r = a) by (apply (Hg (a, s)); rewrite E; simpl; auto).
      rewrite Hr. split.
      * intros x [<-|Hx]; [ left; reflexivity | right; auto ].
      * intros x y [[|z l1] [l2 [l3 Eq]]]; cbn [app] in Eq.
        -- injection Eq as <- Eq. apply before_head. apply IHin.
           rewrite Eq. apply in_or_app. right. simpl. auto.
        -- injection Eq as <- Eq. apply before_cons. apply IHb.
           now exists l1, l2, l3.
    + lia.
Qed.

Lemma score_job_job (self : Recommender) (im : option string)
      (e : JobRole * R) (r : JobRecommendation) :
  In r (score_job self im e) -> job r = fst e.
Proof.
  destruct e as [j s]. intros H. apply score_job_inv in H.
  destruct H as [_ ->]. reflexivity.
Qed.

Lemma score_course_course (self : Recommender) (user_skills : list string)
      (lvl : string) (e : Course * R) (r : CourseRecommendation) :
  In r (score_course self user_skills lvl e) -> course r = fst e.
Proof.
  destruct e as [c s]. intros H. apply score_course_inv in H.
  destruct H as [_ ->]. reflexivity.
Qed.

(** X2: both result lists are ranked: in [job_recommendations] the match
    scores never increase from one entry to a later one, and in
    [course_recommendations] the sort keys
    [0.7 * relevance_score + 0.3 * skill_importance] never increase. *)
Theorem recommendations_ranked
        (self : Recommender) (analyzed_data : AnalyzedData) (r : Recommendations) :
  get_recommendations self analyzed_data = Ok r ->
  StronglySorted (fun a b => match_score b <= match_score a)
                 (job_recommendations r) /\
  StronglySorted (fun a b => course_key b <= course_key a)
                 (course_recommendations r).
Proof.
  intros Hr. destruct (get_recommendations_inv _ _ Hr) as [_ [Hj Hc]].
  apply recommend_jobs_inv in Hj. destruct Hj as [sj [_ ->]].
  apply recommend_courses_inv in Hc. destruct Hc as [sc [_ ->]].
  split; apply firstn_sorted, sort_desc_sorted.
Qed.

(** X2 at the profile [cloud_beginner] *)
Lemma recommendations_ranked_witness :
  exists r,
    get_recommendations init cloud_beginner = Ok r /\
    StronglySorted (fun a b => course_key b <= course_key a)
                   (course_recommendations r).
Proof.
  destruct (init_total cloud_beginner) as [r Hr]. exists r.
  split; [ exact Hr | ].
  exact (proj2 (recommendations_ranked init cloud_beginner Hr)).
Defined.

(** X3: ties keep the catalog order.  When two returned jobs have the same
    match score, the one listed first is the one that comes first in
    [job_roles]; likewise two returned courses with the same sort key are
    in the order of [courses]. *)
Theorem ties_keep_catalog_order
        (self : Recommender) (analyzed_data : AnalyzedData) (r : Recommendations) :
  get_recommendations self analyzed_data = Ok r ->
  (forall a b,
      before a b (job_recommendations r) ->
      match_score a = match_score b ->
      before (job a) (job b) (job_roles self)) /\
  (forall a b,
      before a b (course_recommendations r) ->
      course_key a = course_key b ->
      before (course a) (course b) (courses self)).
Proof.
  intros Hr. destruct (get_recommendations_inv _ _ Hr) as [_ [Hj Hc]].
  apply recommend_jobs_inv in Hj. destruct Hj as [sj [_ Ej]].
  apply recommend_courses_inv in Hc. destruct Hc as [sc [_ Ec]].
  split; intros a b Hb Heq.
  - rewrite Ej in Hb. apply before_firstn in Hb.
    apply (before_filter
             (fun x => if Req_dec_T (match_score x) (match_score a)
                       then true else false)) in Hb.
    + rewrite sort_desc_stable in Hb. apply before_of_filter in Hb.
      apply (before_map job) in Hb.
      revert Hb. apply candidates_in_catalog_order.
      * apply score_job_job.
      * apply score_job_length.
    + destruct (Req_dec_T (match_score a) (match_score a)); congruence.
    + destruct (Req_dec_T (match_score b) (match_score a)); congruence.
  - rewrite Ec in Hb. apply before_firstn in Hb.
    apply (before_filter
             (fun x => if Req_dec_T (course_key x) (course_key a)
                       then true else false)) in Hb.
    + rewrite sort_desc_stable in Hb. apply before_of_filter in Hb.
      apply (before_map course) in Hb.
      revert Hb. apply candidates_in_catalog_order.
      * apply score_course_course.
      * apply score_course_length.
    + destruct (Req_dec_T (course_key a) (course_key a)); congruence.
    + destruct (Req_dec_T (course_key b) (course_key a)); congruence.
Qed.

(** X3 at the profile [welder] and the job catalog of [__init__] *)
Lemma ties_keep_catalog_order_witness :
  exists r,
    get_recommendations init welder = Ok r /\
    forall a b,
      before a b (course_recommendations r) ->
      course_key a = course_key b ->
      before (course a) (course b) (courses init).
Proof.
  destruct (init_total welder) as [r Hr]. exists r.
  split; [ exact Hr | ].
  exact (proj2 (ties_keep_catalog_order init welder Hr)).
Defined.

End RankingOfRecommendations.

(** ** Further properties: the industry matcher *)

Section MatcherProperties.

Lemma industry_scores_raise (skill_list : list string)
      (clusters : list (string * list string)) :
  Exists (fun e => snd e = []) clusters ->
  mapM (industry_score skill_list) clusters = Raise ZeroDivisionError.
Proof.
  induction 1 as [e cl He | e cl _ IH]; cbn [mapM].
  - unfold industry_score. now rewrite He.
  - unfold industry_score at 1. destruct (snd e); [ reflexivity | ].
    cbn [bind]. now rewrite IH.
Qed.

Lemma max_from_In (A : Type) (key : A -> Q) (l : list A) (best : A) :
  In (max_from key best l) (best :: l).
Proof.
  revert best. induction l as [|x l IH]; intros best; cbn [max_from].
  - left. reflexivity.
  - destruct (IH (if Qltb (key best) (key x) then x else best)) as [H|H].
    + rewrite <- H. destruct (Qltb (key best) (key x)); simpl; auto.
    + right. right. exact H.
Qed.

(** X4: the outcome of the matcher on any cluster table.  It raises
    [ZeroDivisionError] exactly when some cluster has no skill; otherwise it
    returns, and what it returns is the name of a cluster of the table, or
    nothing when the table is empty. *)
Theorem industry_match_outcome (self : Recommender) (skill_list : list string) :
  (Exists (fun e => snd e = []) (industry_clusters self) /\
   _get_industry_match self skill_list = Raise ZeroDivisionError) \/
  (Forall (fun e => snd e <> []) (industry_clusters self) /\
   exists o,
     _get_industry_match self skill_list = Ok o /\
     match o with
     | Some name => In name (map fst (industry_clusters self))
     | None => industry_clusters self = []
     end).
Proof.
  destruct (Exists_dec (fun e : string * list string => snd e = [])
                       (industry_clusters self)) as [Hex|Hno].
  - intros e. destruct (snd e); [ left; reflexivity | right; discriminate ].
  - left. split; [ exact Hex | ].
    unfold _get_industry_match. now rewrite industry_scores_raise.
  - right.
    assert (Hall : Forall (fun e => snd e <> []) (industry_clusters self)).
    { apply Forall_forall. intros e He Hnil. apply Hno.
      apply Exists_exists. eauto. }
    split; [ exact Hall | ].
    rewrite get_industry_match_ok by (now apply Forall_forall).
    eexists. split; [ reflexivity | ].
    unfold scores_of.
    destruct (industry_clusters self) as [|e cl]; cbn [map]; [ reflexivity | ].
    set (scores := map (fun e => (fst e, overlap skill_list (snd e))) cl).
    set (first := (fst e, overlap skill_list (snd e))).
    assert (Hk : map fst (first :: scores) = fst e :: map fst cl).
    { unfold first, scores. cbn [map fst]. f_equal.
      rewrite map_map. reflexivity. }
    rewrite <- Hk. apply in_map. apply max_from_In.
Qed.

Lemma common_skills_ext (l l' cluster : list string) :
  (forall s, In s l <-> In s l') ->
  common_skills l cluster = common_skills l' cluster.
Proof.
  intros H. unfold common_skills. f_equal. apply filter_ext. intros s.
  destruct (str_in s l) eqn:E.
  - symmetry. apply str_in_In, H, str_in_In, E.
  - symmetry. apply str_in_false. intros Hs. apply H in Hs.
    apply str_in_In in Hs. congruence.
Qed.

Lemma mapM_ext (A B : Type) (f g : A -> result B) (l : list A) :
  (forall x, f x = g x) -> mapM f l = mapM g l.
Proof.
  intros H. induction l as [|x l IH]; cbn [mapM]; [ reflexivity | ].
  now rewrite H, IH.
Qed.

Lemma industry_match_ext (self : Recommender) (l l' : list string) :
  (forall s, In s l <-> In s l') ->
  _get_industry_match self l = _get_industry_match self l'.
Proof.
  intros H. unfold _get_industry_match. f_equal.
  apply mapM_ext. intros e. unfold industry_score, overlap.
  now rewrite (@common_skills_ext l l' (snd e) H).
Qed.

(** X5: the matcher looks at the skills as a set: two skill lists with the
    same members (whatever their order and repetitions) get the same answer,
    on any cluster table. *)
Theorem industry_match_set_invariant
        (self : Recommender) (l l' : list string) :
  (forall s, In s l <-> In s l') ->
  _get_industry_match self l = _get_industry_match self l'.
Proof.
  intros H. rewrite (industry_match_ext self l l') by exact H. reflexivity.
Qed.

(** X5 at a list with a repeated skill and its reordering *)
Lemma industry_match_set_invariant_witness :
  _get_industry_match init ["Docker"; "Python"; "Docker"; "AWS"]
  = _get_industry_match init ["AWS"; "Docker"; "Python"].
Proof.
  apply industry_match_set_invariant. intros s. simpl. intuition.
Defined.

End MatcherProperties.

(** ** Further properties: what is recommended *)

Section RecommendationProperties.

Local Open Scope R_scope.

Ltac split_Rmin :=
  unfold Rmin;
  match goal with
  | |- context [Rle_dec ?a ?b] => destruct (Rle_dec a b)
  end.

(** X6: on any recommender object, every returned job is a job of the
    catalog with a match score in (0,1]; its [industry_alignment] is either
    absent or the matched industry, and an aligned job scores above 0.2. *)
Theorem job_scores_and_alignment
        (self : Recommender) (analyzed_data : AnalyzedData) (r : Recommendations) :
  get_recommendations self analyzed_data = Ok r ->
  Forall (fun rec =>
            In (job rec) (job_roles self) /\
            0 < match_score rec <= 1 /\
            (industry_alignment rec = None \/
             (industry_alignment rec = matched_industry r /\
              0.2 < match_score rec)))
         (job_recommendations r).
Proof.
  intros Hr. destruct (get_recommendations_inv _ _ Hr) as [_ [Hj _]].
  apply recommend_jobs_inv in Hj. destruct Hj as [sims [_ E]]. rewrite E.
  apply Forall_forall. intros rec Hin.
  apply In_top, in_flat_map in Hin. destruct Hin as [[j sim] [Hc Hrec]].
  apply score_job_inv in Hrec. destruct Hrec as [Hpos ->].
  cbn [job match_score industry_alignment].
  split; [ now apply in_combine_l in Hc | ].
  destruct (industry_hit self (matched_industry r) j).
  - split; [ split_Rmin; lra | ].
    right. split; [ reflexivity | split_Rmin; lra ].
  - split; [ split_Rmin; lra | ]. now left.
Qed.

(** X6 at the profile [agile_only] *)
Lemma job_scores_and_alignment_witness :
  exists r,
    get_recommendations init agile_only = Ok r /\
    Forall (fun rec => 0 < match_score rec <= 1) (job_recommendations r).
Proof.
  destruct (init_total agile_only) as [r Hr]. exists r.
  split; [ exact Hr | ].
  eapply Forall_impl; [ | exact (job_scores_and_alignment init agile_only Hr) ].
  intros rec H. exact (proj1 (proj2 H)).
Defined.

(** X7: a preference that names no cluster of the table is still reported as
    the matched industry, but it earns no job a bonus: every returned job
    has no [industry_alignment], and its match score is
    [min(similarity + 0, 1)] for its own similarity, the positive one
    computed for that job against the weighted skills. *)
Theorem unknown_preference_gives_no_bonus
        (self : Recommender) (analyzed_data : AnalyzedData) (p : string)
        (r : Recommendations) :
  industry_preference analyzed_data = Some p ->
  p <> "" ->
  ~ In p (map fst (industry_clusters self)) ->
  get_recommendations self analyzed_data = Ok r ->
  matched_industry r = Some p /\
  exists sims,
    job_similarities
      self (_apply_skill_weights self (get_skills analyzed_data)) = Ok sims /\
    Forall (fun rec =>
              industry_alignment rec = None /\
              exists similarity,
                In (job rec, similarity) (combine (job_roles self) sims) /\
                0 < similarity /\
                match_score rec = Rmin (similarity + 0) 1.0)
           (job_recommendations r).
Proof.
  intros Hp Hne Habs Hr.
  destruct (get_recommendations_inv _ _ Hr) as [Hi [Hj _]].
  assert (E : matched_industry r = Some p).
  { unfold industry_step in Hi. rewrite Hp in Hi. cbn [falsy] in Hi.
    destruct (String.eqb p "") eqn:Ep.
    - apply String.eqb_eq in Ep. contradiction.
    - congruence. }
  split; [ exact E | ].
  rewrite E in Hj. apply job_scores_exact in Hj.
  destruct Hj as [sims [Hs Hall]]. exists sims.
  split; [ exact Hs | ].
  eapply Forall_impl; [ | exact Hall ].
  intros rec [sim [Hin [Hpos H]]]. cbv beta in H.
  assert (Hhit : industry_hit self (Some p) (job rec) = false).
  { unfold industry_hit, cluster_of. rewrite dict_get_absent by exact Habs.
    apply not_true_is_false. intros Hex. apply existsb_exists in Hex.
    destruct Hex as [skill [_ Hsk]]. discriminate. }
  rewrite Hhit in H. destruct H as [Hm Ha].
  split; [ exact Ha | ]. exists sim. auto.
Qed.

(** X7 at the preference "finance", which is no cluster of [__init__], and
    a profile that gets jobs *)
Lemma unknown_preference_gives_no_bonus_witness :
  exists r sims,
    get_recommendations init (profile ["Python"] None (Some "finance")) = Ok r /\
    matched_industry r = Some "finance" /\
    job_similarities init (_apply_skill_weights init ["Python"]) = Ok sims /\
    In software_engineer (map job (job_recommendations r)) /\
    Forall (fun rec =>
              industry_alignment rec = None /\
              exists similarity,
                In (job rec, similarity) (combine (job_roles init) sims) /\
                0 < similarity /\
                match_score rec = Rmin (similarity + 0) 1.0)
           (job_recommendations r).
Proof.
  destruct (init_job_membership (profile ["Python"] None (Some "finance")))
    as [r [Hr Hiff]].
  assert (Hne : "finance" <> "") by discriminate.
  assert (Habs : ~ In "finance" (map fst (industry_clusters init))).
  { simpl. intuition discriminate. }
  destruct (unknown_preference_gives_no_bonus
              init (profile ["Python"] None (Some "finance"))
              eq_refl Hne Habs Hr) as [E [sims [Hs H]]].
  exists r, sims.
  split; [ exact Hr | ].
  split; [ exact E | ].
  split; [ exact Hs | ].
  split; [ | exact H ].
  apply Hiff. split; [ simpl; auto | vm_compute; reflexivity ].
Defined.

(** X8: with the catalogs of [__init__] and ASCII skills, a job is in
    [job_recommendations] exactly when its text has a token (a lower-cased
    word of two or more characters) in common with the weighted skill text;
    the matched industry and the bonus play no part in whether it is
    returned. *)
Theorem job_recommended_iff_common_token (analyzed_data : AnalyzedData) :
  Forall (fun skill => ascii_only skill = true) (get_skills analyzed_data) ->
  exists r,
    get_recommendations init analyzed_data = Ok r /\
    forall j,
      In j (map job (job_recommendations r)) <->
      In j (job_roles init) /\
      shares_token
        (tokenize (_apply_skill_weights init (get_skills analyzed_data)))
        (tokenize (String.concat " " (required_skills j))) = true.
Proof.
  intros _. apply init_job_membership.
Qed.

(** X8 at the lower-case skill [python], which is no required skill of any
    job and a token of two job texts *)
Lemma job_recommended_iff_common_token_witness :
  Forall (fun skill => ascii_only skill = true) ["python"] /\
  exists r,
    get_recommendations init (profile ["python"] None None) = Ok r /\
    In software_engineer (map job (job_recommendations r)) /\
    In data_scientist (map job (job_recommendations r)) /\
    ~ In devops_engineer (map job (job_recommendations r)).
Proof.
  assert (Ha : Forall (fun skill => ascii_only skill = true) ["python"])
    by (repeat constructor).
  split; [ exact Ha | ].
  destruct (job_recommended_iff_common_token (profile ["python"] None None) Ha)
    as [r [Hr Hiff]].
  exists r. split; [ exact Hr | ].
  split; [ | split ].
  - apply Hiff. split; [ simpl; auto | vm_compute; reflexivity ].
  - apply Hiff. split; [ simpl; auto | vm_compute; reflexivity ].
  - intros Hin. apply Hiff in Hin. destruct Hin as [_ Hsh].
    vm_compute in Hsh. discriminate.
Defined.

(** X9: with the catalogs of [__init__], a course is in
    [course_recommendations] exactly when it lists a skill the candidate
    does not have; its similarity, experience level and weights play no part
    in whether it is returned. *)
Theorem course_recommended_iff_missing_skill (analyzed_data : AnalyzedData) :
  exists r,
    get_recommendations init analyzed_data = Ok r /\
    forall c,
      In c (map course (course_recommendations r)) <->
      In c (courses init) /\
      exists skill,
        In skill (course_skills c) /\ ~ In skill (get_skills analyzed_data).
Proof.
  destruct (init_total analyzed_data) as [r Hr]. exists r.
  split; [ exact Hr | ].
  destruct (get_recommendations_inv _ _ Hr) as [_ [_ Hc]].
  set (w := _apply_skill_weights init (get_skills analyzed_data)) in *.
  apply recommend_courses_inv in Hc. destruct Hc as [sims [Hs E]].
  rewrite init_course_similarities in Hs. apply Ok_inj in Hs. subst sims.
  unfold course_docs in E at 2. rewrite map_map, combine_map_r in E.
  intros c. split.
  - intros Hin. apply in_map_iff in Hin. destruct Hin as [rec [Hcourse Hin]].
    rewrite E in Hin. apply In_top, in_flat_map in Hin.
    destruct Hin as [[c' sim] [Hc Hrec]].
    apply in_map_iff in Hc. destruct Hc as [c0 [Hc Hc0]].
    injection Hc as -> <-.
    apply score_course_inv in Hrec. destruct Hrec as [Hm ->].
    cbn [course] in Hcourse. subst c'. split; [ exact Hc0 | ].
    destruct (missing_of (get_skills analyzed_data) c) as [|skill ms] eqn:Em;
      [ congruence | ].
    assert (Hsk : In skill (missing_of (get_skills analyzed_data) c))
      by (rewrite Em; simpl; auto).
    apply filter_In in Hsk. destruct Hsk as [Hsk Hn].
    exists skill. split; [ exact Hsk | ].
    apply negb_true_iff in Hn. now apply str_in_false.
  - intros [Hin [skill [Hsk Hn]]].
    assert (Hm : missing_of (get_skills analyzed_data) c <> []).
    { intros Em.
      assert (Hf : In skill (missing_of (get_skills analyzed_data) c)).
      { apply filter_In. split; [ exact Hsk | ].
        apply negb_true_iff. now apply str_in_false. }
      rewrite Em in Hf. exact Hf. }
    apply in_map_iff.
    eexists. split; [ | rewrite E; apply top_all ].
    2: { eapply Nat.le_trans;
         [ apply flat_map_length_le, score_course_length | ].
         rewrite length_map. simpl. lia. }
    2: { apply in_flat_map. eexists. split.
         - apply in_map_iff. exists c. split; [ reflexivity | exact Hin ].
         - rewrite score_course_missing by exact Hm. left. reflexivity. }
    reflexivity.
Qed.

End RecommendationProperties.

(** ** Further properties: the fields of a recommendation *)

Section RecordProperties.

Local Open Scope R_scope.

Lemma NoDup_firstn (B : Type) (n : nat) (l : list B) :
  NoDup l -> NoDup (firstn n l).
Proof.
  intros H. revert n. induction H as [|x l Hx Hl IH]; intros [|n]; simpl;
    try constructor.
  - intros Hin. apply Hx. revert Hin. apply In_firstn_In.
  - apply IH.
Qed.

Lemma candidates_NoDup (B C : Type) (f : B * R -> list C) (g : C -> B) :
  (forall e b, In b (f e) -> g b = fst e) ->
  (forall e, List.length (f e) <= 1)%nat ->
  forall (l : list B) (sims : list R),
    NoDup l -> NoDup (map g (flat_map f (combine l sims))).
Proof.
  intros Hg Hlen l sims Hnd. revert sims.
  induction Hnd as [|a l Ha Hnd IH]; intros [|s sims];
    cbn [combine flat_map map]; try constructor.
  pose proof (Hlen (a, s)) as Hl.
  destruct (f (a, s)) as [|r [|r' rs]] eqn:E; cbn [app map]; cbn in Hl.
  - apply IH.
  - assert (Hr : g r = a) by (apply (Hg (a, s)); rewrite E; simpl; auto).
    rewrite Hr. constructor; [ | apply IH ].
    intros Hin. apply Ha.
    exact (proj1 (candidates_in_catalog_order f g Hg Hlen l sims) a Hin).
  - lia.
Qed.

(** X10: no entry is recommended twice: when the job catalog has no
    repeated entry, neither has the list of returned jobs, and the same for
    the courses. *)
Theorem recommendations_without_repetition
        (self : Recommender) (analyzed_data : AnalyzedData) (r : Recommendations) :
  NoDup (job_roles self) ->
  NoDup (courses self) ->
  get_recommendations self analyzed_data = Ok r ->
  NoDup (map job (job_recommendations r)) /\
  NoDup (map course (course_recommendations r)).
Proof.
  intros Hjobs Hcourses Hr.
  destruct (get_recommendations_inv _ _ Hr) as [_ [Hj Hc]].
  apply recommend_jobs_inv in Hj. destruct Hj as [sj [_ ->]].
  apply recommend_courses_inv in Hc. destruct Hc as [sc [_ ->]].
  split.
  - rewrite <- firstn_map. apply NoDup_firstn.
    eapply Permutation_NoDup;
      [ apply Permutation_sym, Permutation_map, sort_desc_perm | ].
    apply candidates_NoDup;
      [ apply score_job_job | apply score_job_length | exact Hjobs ].
  - rewrite <- firstn_map. apply NoDup_firstn.
    eapply Permutation_NoDup;
      [ apply Permutation_sym, Permutation_map, sort_desc_perm | ].
    apply candidates_NoDup;
      [ apply score_course_course | apply score_course_length | exact Hcourses ].
Qed.

Lemma init_courses_NoDup : NoDup (courses init).
Proof.
  apply NoDup_map_inv with (f := course_title). simpl.
  repeat constructor; simpl; intuition discriminate.
Qed.

(** X10 at the catalogs of [__init__] and the profile [cloud_beginner] *)
Lemma recommendations_without_repetition_witness :
  NoDup (job_roles init) /\
  NoDup (courses init) /\
  exists r,
    get_recommendations init cloud_beginner = Ok r /\
    NoDup (map job (job_recommendations r)) /\
    NoDup (map course (course_recommendations r)).
Proof.
  split; [ exact init_job_roles_NoDup | ].
  split; [ exact init_courses_NoDup | ].
  destruct (init_total cloud_beginner) as [r Hr]. exists r.
  split; [ exact Hr | ].
  exact (@recommendations_without_repetition
           init cloud_beginner r init_job_roles_NoDup init_courses_NoDup Hr).
Defined.

Lemma experience_ordinal_range (s : string) :
  (0 <= experience_ordinal s <= 2)%Z.
Proof.
  unfold experience_ordinal. cbn [dict_get].
  repeat match goal with
         | |- context [String.eqb ?a ?b] => destruct (String.eqb a b)
         end; lia.
Qed.

(** X11: on any recommender object, the relevance of a returned course is
    its own similarity (the non-negative one computed for that course
    against the weighted skills) times [1 - 0.2 * d], where [d] is the
    distance between the level of the course and the caller's level, a
    number from 0 to 2; so the relevance is never negative and never above
    the similarity, which it equals when the levels agree. *)
Theorem course_relevance_bounds
        (self : Recommender) (analyzed_data : AnalyzedData) (r : Recommendations) :
  get_recommendations self analyzed_data = Ok r ->
  exists sims,
    course_similarities
      self (_apply_skill_weights self (get_skills analyzed_data)) = Ok sims /\
    Forall (fun rec =>
              exists similarity d,
                In (course rec, similarity) (combine (courses self) sims) /\
                0 <= similarity /\
                d = Z.abs (experience_ordinal (level (course rec))
                           - experience_ordinal
                               (get_experience_level analyzed_data)) /\
                (0 <= d <= 2)%Z /\
                relevance_score rec = similarity * (1 - 0.2 * IZR d) /\
                0 <= relevance_score rec <= similarity)
           (course_recommendations r).
Proof.
  intros Hr. destruct (get_recommendations_inv _ _ Hr) as [_ [_ Hc]].
  apply recommend_courses_inv in Hc. destruct Hc as [sims [Hs ->]].
  exists sims. split; [ exact Hs | ].
  unfold course_similarities in Hs. apply query_similarities_inv in Hs.
  apply Forall_forall. intros rec Hin.
  apply In_top, in_flat_map in Hin. destruct Hin as [[c sim] [Hc Hrec]].
  apply score_course_inv in Hrec. destruct Hrec as [_ ->].
  cbn [relevance_score course].
  set (lvl := get_experience_level analyzed_data).
  set (d := Z.abs (experience_ordinal (level c) - experience_ordinal lvl)).
  exists sim, d.
  assert (Hsim : 0 <= sim).
  { apply in_combine_r in Hc. rewrite Hs in Hc.
    apply in_map_iff in Hc. destruct Hc as [text [<- _]].
    apply cosine_nonneg. }
  assert (H1 := experience_ordinal_range (level c)).
  assert (H2 := experience_ordinal_range lvl).
  assert (Hd : (0 <= d <= 2)%Z) by (unfold d; lia).
  assert (Hk0 : 0 <= IZR d) by (apply (IZR_le 0); lia).
  assert (Hk2 : IZR d <= 2) by (apply (IZR_le d 2); lia).
  split; [ exact Hc | ].
  split; [ exact Hsim | ].
  split; [ reflexivity | ].
  split; [ exact Hd | ].
  split; [ reflexivity | ].
  replace (sim * (1 - 0.2 * IZR d)) with (sim - 0.2 * (sim * IZR d)) by ring.
  assert (Hp0 : 0 <= sim * IZR d) by (apply Rmult_le_pos; lra).
  assert (Hp2 : sim * IZR d <= sim * 2)
    by (apply Rmult_le_compat_l; lra).
  lra.
Qed.

(** X11 at the profile [cloud_beginner] *)
Lemma course_relevance_bounds_witness :
  exists r sims,
    get_recommendations init cloud_beginner = Ok r /\
    course_similarities
      init (_apply_skill_weights init (get_skills cloud_beginner)) = Ok sims /\
    Forall (fun rec =>
              exists similarity d,
                In (course rec, similarity) (combine (courses init) sims) /\
                0 <= similarity /\
                d = Z.abs (experience_ordinal (level (course rec))
                           - experience_ordinal
                               (get_experience_level cloud_beginner)) /\
                (0 <= d <= 2)%Z /\
                relevance_score rec = similarity * (1 - 0.2 * IZR d) /\
                0 <= relevance_score rec <= similarity)
           (course_recommendations r).
Proof.
  destruct (init_total cloud_beginner) as [r Hr].
  destruct (@course_relevance_bounds init cloud_beginner r Hr)
    as [sims [Hs H]].
  exists r, sims. split; [ exact Hr | ]. split; [ exact Hs | exact H ].
Defined.

Lemma experience_match_false
      (analyzed_data : AnalyzedData) (r : Recommendations) :
  get_recommendations init analyzed_data = Ok r ->
  ~ In (get_experience_level analyzed_data)
       ["Intermediate"; "Advanced"; "Beginner"] ->
  Forall (fun rec => experience_match rec = false) (course_recommendations r).
Proof.
  intros Hr Hlvl. destruct (get_recommendations_inv _ _ Hr) as [_ [_ Hc]].
  apply recommend_courses_inv in Hc. destruct Hc as [sims [_ ->]].
  apply Forall_forall. intros rec Hin.
  apply In_top, in_flat_map in Hin. destruct Hin as [[c sim] [Hc Hrec]].
  apply score_course_inv in Hrec. destruct Hrec as [_ ->].
  cbn [experience_match].
  apply not_true_is_false. intros Heq. apply String.eqb_eq in Heq.
  apply Hlvl. rewrite <- Heq.
  apply in_combine_l in Hc. simpl in Hc.
  destruct Hc as [<-|[<-|[<-|[]]]]; simpl; auto.
Qed.

(** X12: with the catalog of [__init__], [experience_match] is false on
    every returned course unless the caller's level is, letter for letter,
    one of "Intermediate", "Advanced", "Beginner"; in particular it is
    false throughout for the lower-case default level. *)
Theorem experience_match_needs_exact_level
        (analyzed_data : AnalyzedData) (r : Recommendations) :
  get_recommendations init analyzed_data = Ok r ->
  ~ In (get_experience_level analyzed_data)
       ["Intermediate"; "Advanced"; "Beginner"] ->
  Forall (fun rec => experience_match rec = false) (course_recommendations r).
Proof.
  intros Hr Hlvl. exact (experience_match_false analyzed_data Hr Hlvl).
Qed.

(** X12 at a profile without [experience_level] *)
Lemma experience_match_needs_exact_level_witness :
  ~ In (get_experience_level welder) ["Intermediate"; "Advanced"; "Beginner"] /\
  exists r,
    get_recommendations init welder = Ok r /\
    Forall (fun rec => experience_match rec = false) (course_recommendations r).
Proof.
  assert (H : ~ In (get_experience_level welder)
                   ["Intermediate"; "Advanced"; "Beginner"]).
  { simpl. intuition discriminate. }
  split; [ exact H | ].
  destruct (init_total welder) as [r Hr]. exists r.
  split; [ exact Hr | ].
  exact (@experience_match_needs_exact_level welder r Hr H).
Defined.

End RecordProperties.

(** ** Further properties: the order of the skills *)

Section SkillOrder.

Local Open Scope R_scope.

Lemma lower_app (a b : string) : lower (a ++ b) = (lower a ++ lower b)%string.
Proof.
  induction a as [|c a IH]; simpl; [ reflexivity | now rewrite IH ].
Qed.

(** a space ends the word being read *)
Lemma word_runs_space (a b cur : string) :
  word_runs (a ++ String " " b) cur
  = (word_runs a cur ++ word_runs b EmptyString)%list.
Proof.
  revert cur. induction a as [|c a IH]; intros cur.
  - reflexivity.
  - cbn [append word_runs]. destruct (is_word_char c).
    + apply IH.
    + cbn [app]. now rewrite IH.
Qed.

Lemma tokenize_space (a b : string) :
  tokenize (a ++ " " ++ b) = (tokenize a ++ tokenize b)%list.
Proof.
  unfold tokenize. rewrite lower_app.
  change (lower (" " ++ b)) with (String " " (lower b)).
  now rewrite word_runs_space, filter_app.
Qed.

(** joining texts with spaces and tokenizing gives the tokens of each text,
    in order *)
Lemma tokenize_join (l : list string) :
  tokenize (String.concat " " l) = flat_map tokenize l.
Proof.
  induction l as [|x l IH]; [ reflexivity | ].
  destruct l as [|y l].
  - cbn [String.concat flat_map]. now rewrite app_nil_r.
  - change (String.concat " " (x :: y :: l))
      with (x ++ " " ++ String.concat " " (y :: l))%string.
    rewrite tokenize_space, IH. reflexivity.
Qed.

Lemma sum_over_perm (V V' : list string) (h : string -> R) :
  Permutation V V' -> sum_over V h = sum_over V' h.
Proof.
  unfold sum_over.
  induction 1 as [|t V V' _ IH|t u V|V V' V'' _ IH1 _ IH2]; simpl.
  - reflexivity.
  - now rewrite IH.
  - ring.
  - now rewrite IH1.
Qed.

Lemma sum_over_ext (V : list string) (h h' : string -> R) :
  (forall t, h t = h' t) -> sum_over V h = sum_over V h'.
Proof.
  intros H. unfold sum_over.
  induction V as [|t V IH]; simpl; [ reflexivity | now rewrite H, IH ].
Qed.

Lemma normalised_perm (V V' : list string) (f f' : string -> R) (t : string) :
  Permutation V V' -> (forall u, f u = f' u) ->
  normalised V f t = normalised V' f' t.
Proof.
  intros HV Hf. unfold normalised.
  rewrite (sum_over_perm _ HV), Hf.
  rewrite (sum_over_ext V' (fun u => f u * f u) (fun u => f' u * f' u)).
  - reflexivity.
  - intros u. now rewrite Hf.
Qed.

Lemma l2_normalize_map (V : list string) (f : string -> R) :
  l2_normalize (map f V) = map (normalised V f) V.
Proof.
  unfold l2_normalize, normalised, rescale. rewrite dot_map.
  fold (sum_over V (fun t => f t * f t)).
  destruct (Req_dec_T (sqrt (sum_over V (fun t => f t * f t))) 0);
    [ reflexivity | ].
  rewrite map_map. reflexivity.
Qed.

(** a similarity as a sum over the vocabulary *)
Lemma cosine_as_sum (docs : list (list string)) (q d : list string) :
  cosine docs q d =
  sum_over (vocabulary docs)
           (fun t =>
              normalised (vocabulary docs)
                         (normalised (vocabulary docs) (weight docs q)) t
              * normalised (vocabulary docs)
                           (normalised (vocabulary docs) (weight docs d)) t).
Proof.
  unfold cosine, tfidf_row.
  change (fun t => INR (tf t q) * idf docs t) with (weight docs q).
  change (fun t => INR (tf t d) * idf docs t) with (weight docs d).
  rewrite !l2_normalize_map, dot_map. reflexivity.
Qed.

Section PermutedQuery.

Variables (ds : list (list string)) (q q' : list string).
Hypothesis Hperm : Permutation q q'.

Lemma str_in_perm (t : string) : str_in t q = str_in t q'.
Proof.
  destruct (str_in t q) eqn:E; symmetry.
  - apply str_in_In. apply str_in_In in E.
    now apply (Permutation_in _ Hperm).
  - apply str_in_false. intros H. apply (Permutation_in _ (Permutation_sym Hperm)) in H.
    apply str_in_In in H. congruence.
Qed.

Lemma vocabulary_perm :
  Permutation (vocabulary (ds ++ [q])) (vocabulary (ds ++ [q'])).
Proof.
  unfold vocabulary. apply NoDup_Permutation; try apply NoDup_nodup.
  intros t. rewrite !nodup_In, !concat_app, !in_app_iff. cbn [List.concat].
  rewrite !app_nil_r. split; intros [H|H]; auto; right.
  - now apply (Permutation_in _ Hperm).
  - now apply (Permutation_in _ (Permutation_sym Hperm)).
Qed.

Lemma idf_perm (t : string) : idf (ds ++ [q]) t = idf (ds ++ [q']) t.
Proof.
  unfold idf, df. rewrite !filter_app, !length_app. cbn [filter].
  rewrite str_in_perm. destruct (str_in t q'); reflexivity.
Qed.

Lemma weight_query_perm (t : string) :
  weight (ds ++ [q]) q t = weight (ds ++ [q']) q' t.
Proof.
  unfold weight, tf. rewrite idf_perm.
  now rewrite (proj1 (Permutation_count_occ string_dec q q') Hperm).
Qed.

Lemma weight_doc_perm (d : list string) (t : string) :
  weight (ds ++ [q]) d t = weight (ds ++ [q']) d t.
Proof.
  unfold weight. now rewrite idf_perm.
Qed.

(** reordering the tokens of the query changes no similarity *)
Lemma cosine_perm (d : list string) :
  cosine (ds ++ [q]) q d = cosine (ds ++ [q']) q' d.
Proof.
  rewrite !cosine_as_sum.
  rewrite (sum_over_perm _ vocabulary_perm).
  apply sum_over_ext. intros t.
  f_equal; apply normalised_perm; try apply vocabulary_perm; intros u;
    apply normalised_perm; try apply vocabulary_perm; intros v.
  - apply weight_query_perm.
  - apply weight_doc_perm.
Qed.

End PermutedQuery.

Lemma ranker_perm (texts : list string) (w w' : string) :
  Permutation (tokenize w) (tokenize w') ->
  bind (fit_transform (texts ++ [w])) last_against_rest
  = bind (fit_transform (texts ++ [w'])) last_against_rest.
Proof.
  intros Hp.
  destruct texts as [|text texts].
  - unfold fit_transform. cbn [app map].
    destruct (vocabulary [tokenize w]), (vocabulary [tokenize w']);
      reflexivity.
  - set (L := text :: texts).
    assert (Ew : map tokenize (L ++ [w]) = (map tokenize L ++ [tokenize w])%list)
      by apply map_app.
    assert (Ew' : map tokenize (L ++ [w'])
                  = (map tokenize L ++ [tokenize w'])%list)
      by apply map_app.
    assert (HV := vocabulary_perm (map tokenize L) Hp).
    rewrite <- Ew, <- Ew' in HV.
    destruct (vocabulary (map tokenize (L ++ [w]))) as [|t V] eqn:E.
    + apply Permutation_nil in HV.
      unfold fit_transform. rewrite E, HV. reflexivity.
    + rewrite !query_similarities.
      * f_equal. apply map_ext. intros x. rewrite Ew, Ew'.
        now apply cosine_perm.
      * discriminate.
      * intros E'. rewrite E' in HV.
        apply Permutation_sym, Permutation_nil in HV. discriminate.
      * discriminate.
      * rewrite E. discriminate.
Qed.

Lemma weighted_tokens (self : Recommender) (skill_list : list string) :
  tokenize (_apply_skill_weights self skill_list)
  = flat_map tokenize
             (flat_map (fun skill => repeat skill (repetitions self skill))
                       skill_list).
Proof.
  unfold _apply_skill_weights. now rewrite tokenize_join.
Qed.

Lemma weighted_tokens_perm (self : Recommender) (l l' : list string) :
  Permutation l l' ->
  Permutation (tokenize (_apply_skill_weights self l))
              (tokenize (_apply_skill_weights self l')).
Proof.
  intros H. rewrite !weighted_tokens.
  now apply Permutation_flat_map, Permutation_flat_map.
Qed.

Lemma missing_of_ext (l l' : list string) (c : Course) :
  (forall s, In s l <-> In s l') -> missing_of l c = missing_of l' c.
Proof.
  intros H. unfold missing_of. apply filter_ext. intros s. f_equal.
  destruct (str_in s l) eqn:E; symmetry.
  - apply str_in_In, H, str_in_In, E.
  - apply str_in_false. intros Hs. apply H in Hs.
    apply str_in_In in Hs. congruence.
Qed.

Lemma get_recommendations_perm
      (self : Recommender) (l l' : list string) (lvl pref : option string) :
  Permutation l l' ->
  get_recommendations self (profile l lvl pref)
  = get_recommendations self (profile l' lvl pref).
Proof.
  intros Hp.
  assert (Hin : forall s, In s l <-> In s l').
  { intros s. split; apply Permutation_in;
      [ exact Hp | now apply Permutation_sym ]. }
  assert (Ht := weighted_tokens_perm self Hp).
  unfold get_recommendations, industry_step.
  change (get_skills (profile l lvl pref)) with l.
  change (get_skills (profile l' lvl pref)) with l'.
  change (industry_preference (profile l lvl pref)) with pref.
  change (industry_preference (profile l' lvl pref)) with pref.
  change (get_experience_level (profile l lvl pref))
    with (get_experience_level (profile l' lvl pref)).
  rewrite (industry_match_ext self l l' Hin).
  assert (Hj : forall im,
             _recommend_jobs self (_apply_skill_weights self l) im
             = _recommend_jobs self (_apply_skill_weights self l') im).
  { intros im. unfold _recommend_jobs, job_similarities.
    now rewrite (@ranker_perm _ _ _ Ht). }
  assert (Hc : forall level_string,
             _recommend_courses self (_apply_skill_weights self l) l
                                level_string
             = _recommend_courses self (_apply_skill_weights self l') l'
                                  level_string).
  { intros level_string. unfold _recommend_courses, course_similarities.
    rewrite (@ranker_perm _ _ _ Ht).
    destruct (bind (fit_transform _) last_against_rest) as [sims|e];
      cbn [bind]; [ | reflexivity ].
    do 3 f_equal. apply flat_map_ext. intros [c sim].
    unfold score_course. now rewrite (@missing_of_ext l l' c Hin). }
  destruct (if falsy pref then _get_industry_match self l' else Ok pref)
    as [im|e]; cbn [bind]; [ | reflexivity ].
  rewrite Hj, Hc. reflexivity.
Qed.

(** X13: the order of the skill list does not matter to what is
    recommended.  With the catalogs of [__init__], two profiles whose skill
    lists are permutations of each other (same level, same preference) get
    the same matched industry, the same jobs with the same alignment, and
    the same courses with the same missing skills, skill importance and
    experience match.  Scores, and with them the order of the entries, are
    left out: they are sums of rounded terms taken in the order of the
    tokens. *)
Theorem skill_order_irrelevant
        (l l' : list string) (lvl pref : option string) :
  Permutation l l' ->
  exists r r',
    get_recommendations init (profile l lvl pref) = Ok r /\
    get_recommendations init (profile l' lvl pref) = Ok r' /\
    matched_industry r = matched_industry r' /\
    Permutation (map job_outline (job_recommendations r))
                (map job_outline (job_recommendations r')) /\
    Permutation (map course_outline (course_recommendations r))
                (map course_outline (course_recommendations r')).
Proof.
  intros Hp.
  destruct (init_total (profile l lvl pref)) as [r Hr].
  exists r, r. split; [ exact Hr | ].
  split; [ rewrite <- (get_recommendations_perm init lvl pref Hp); exact Hr | ].
  split; [ reflexivity | ].
  split; apply Permutation_refl.
Qed.

(** X13 at two orders of the same two skills *)
Lemma skill_order_irrelevant_witness :
  Permutation ["Docker"; "Python"] ["Python"; "Docker"] /\
  exists r r',
    get_recommendations init (profile ["Docker"; "Python"] None None) = Ok r /\
    get_recommendations init (profile ["Python"; "Docker"] None None) = Ok r' /\
    matched_industry r = matched_industry r' /\
    Permutation (map job_outline (job_recommendations r))
                (map job_outline (job_recommendations r')) /\
    Permutation (map course_outline (course_recommendations r))
                (map course_outline (course_recommendations r')).
Proof.
  assert (H : Permutation ["Docker"; "Python"] ["Python"; "Docker"])
    by apply perm_swap.
  split; [ exact H | ].
  exact (@skill_order_irrelevant _ _ None None H).
Defined.

End SkillOrder.

(** ** Further properties: weights *)

Section WeightProperties.

Lemma tokens_of_repeat (skill : string) (n : nat) :
  flat_map tokenize (repeat skill n) = List.concat (repeat (tokenize skill) n).
Proof.
  induction n as [|n IH]; simpl; [ reflexivity | now rewrite IH ].
Qed.

(** X14: on any recommender object, the tokens of the weighted skill text are
    the tokens of each skill, written as many times as the skill is
    repeated, skill after skill: joining with spaces neither merges nor
    splits a token. *)
Theorem weighted_text_tokens (self : Recommender) (skill_list : list string) :
  tokenize (_apply_skill_weights self skill_list)
  = flat_map (fun skill =>
                List.concat (repeat (tokenize skill) (repetitions self skill)))
             skill_list.
Proof.
  rewrite weighted_tokens.
  induction skill_list as [|skill l IH]; [ reflexivity | ].
  cbn [flat_map]. rewrite flat_map_app, tokens_of_repeat, IH. reflexivity.
Qed.

Lemma weights_sum_bounds (l : list Q) (acc : Q) :
  Forall (fun x => 1 <= x <= 1.3)%Q l ->
  (acc + 1 * inject_Z (Z.of_nat (List.length l)) <= fold_left Qplus l acc
   /\ fold_left Qplus l acc
      <= acc + 1.3 * inject_Z (Z.of_nat (List.length l)))%Q.
Proof.
  intros H. revert acc. induction H as [|x l Hx _ IH]; intros acc.
  - cbn [fold_left List.length Z.of_nat]. change (inject_Z 0) with 0%Q.
    split; Lqa.lra.
  - cbn [fold_left List.length]. specialize (IH (acc + x)%Q).
    rewrite Nat2Z.inj_succ. unfold Z.succ. rewrite inject_Z_plus.
    set (m := inject_Z (Z.of_nat (List.length l))) in *.
    change (inject_Z 1) with 1%Q.
    destruct IH as [IH1 IH2]. destruct Hx as [Hx1 Hx2].
    split; Lqa.lra.
Qed.

Lemma init_weight_range (skill : string) :
  (1 <= dict_get (skill_weights init) skill 1.0 <= 1.3)%Q.
Proof.
  destruct (init_weight_cases skill) as [<-|[<-|[<-|[<-|[]]]]];
    split; discriminate.
Qed.

Lemma init_mean_weight_range (l : list string) :
  l <> [] -> (1 <= mean_weight init l <= 1.3)%Q.
Proof.
  intros Hne. unfold mean_weight.
  set (ws := map (fun skill => dict_get (skill_weights init) skill 1.0%Q) l).
  assert (Hw : Forall (fun x => 1 <= x <= 1.3)%Q ws).
  { apply Forall_forall. intros x Hx. apply in_map_iff in Hx.
    destruct Hx as [skill [<- _]]. apply init_weight_range. }
  destruct (weights_sum_bounds 0 Hw) as [H1 H2].
  assert (Hlen : List.length ws = List.length l) by apply length_map.
  rewrite Hlen in H1, H2.
  assert (Hpos : (0 < inject_Z (Z.of_nat (List.length l)))%Q).
  { destruct l as [|x l]; [ congruence | ].
    unfold Qlt. cbn [List.length]. simpl. lia. }
  split.
  - apply Qle_shift_div_l; [ exact Hpos | Lqa.lra ].
  - apply Qle_shift_div_r; [ exact Hpos | Lqa.lra ].
Qed.

(** X15: with the tables of [__init__], the skill importance of every
    returned course, the mean weight of its missing skills, lies between
    the least and the greatest weight in use, 1.0 and 1.3. *)
Theorem skill_importance_range (analyzed_data : AnalyzedData) :
  exists r,
    get_recommendations init analyzed_data = Ok r /\
    Forall (fun rec => (1 <= skill_importance rec <= 1.3)%Q)
           (course_recommendations r).
Proof.
  destruct (init_total analyzed_data) as [r Hr]. exists r.
  split; [ exact Hr | ].
  destruct (get_recommendations_inv _ _ Hr) as [_ [_ Hc]].
  apply recommend_courses_inv in Hc. destruct Hc as [sims [_ ->]].
  apply Forall_forall. intros rec Hin.
  apply In_top, in_flat_map in Hin. destruct Hin as [[c sim] [_ Hrec]].
  apply score_course_inv in Hrec. destruct Hrec as [Hm ->].
  cbn [skill_importance]. now apply init_mean_weight_range.
Qed.

End WeightProperties.

(** ** Further properties: the parser *)

Section ParserProperties.

Lemma and_then_Return_inv (A B : Type) (m : res A) (k : A -> res B) (b : B) :
  Lib.and_then m k = Return b -> exists a, m = Return a /\ k a = Return b.
Proof.
  destruct m as [a|e]; cbn [Lib.and_then]; intros H.
  - exists a. auto.
  - discriminate.
Qed.

Lemma str_app_nil_r (a : string) : (a ++ "")%string = a.
Proof.
  induction a as [|c a IH]; simpl; [ reflexivity | now rewrite IH ].
Qed.

Lemma str_app_assoc (a b c : string) :
  ((a ++ b) ++ c)%string = (a ++ b ++ c)%string.
Proof.
  induction a as [|x a IH]; simpl; [ reflexivity | now rewrite IH ].
Qed.

Lemma concat_empty_cons (t : string) (l : list string) :
  String.concat "" (t :: l) = (t ++ String.concat "" l)%string.
Proof.
  destruct l as [|y l]; cbn [String.concat].
  - now rewrite str_app_nil_r.
  - reflexivity.
Qed.

(** reading the pages returns when every page does, with their texts put
    one after the other *)
Lemma read_pages_Return (pages : list (res string)) (text result : string) :
  ResumeParser.read_pages pages text = Return result ->
  exists texts,
    pages = map Return texts /\
    result = (text ++ String.concat "" texts)%string.
Proof.
  revert text. induction pages as [|page pages IH]; intros text H.
  - cbn in H. injection H as <-. exists []. split; [ reflexivity | ].
    cbn. now rewrite str_app_nil_r.
  - cbn [ResumeParser.read_pages] in H.
    apply and_then_Return_inv in H. destruct H as [t [-> H]].
    apply IH in H. destruct H as [texts [-> ->]].
    exists (t :: texts). split; [ reflexivity | ].
    now rewrite concat_empty_cons, str_app_assoc.
Qed.



Lemma lookup_supported (file_extension : string) :
  (file_extension = ".pdf" /\
   ResumeParser.lookup ResumeParser.supported_formats file_extension
   = Some ResumeParser._parse_pdf) \/
  ((file_extension = ".doc" \/ file_extension = ".docx") /\
   ResumeParser.lookup ResumeParser.supported_formats file_extension
   = Some ResumeParser._parse_doc) \/
  (~ In file_extension [".pdf"; ".doc"; ".docx"] /\
   ResumeParser.lookup ResumeParser.supported_formats file_extension = None).
Proof.
  unfold ResumeParser.supported_formats. cbn [ResumeParser.lookup].
  destruct (String.eqb ".pdf" file_extension) eqn:E1.
  { apply String.eqb_eq in E1. left. auto. }
  destruct (String.eqb ".doc" file_extension) eqn:E2.
  { apply String.eqb_eq in E2. right. left. auto. }
  destruct (String.eqb ".docx" file_extension) eqn:E3.
  { apply String.eqb_eq in E3. right. left. auto. }
  right. right. split; [ | reflexivity ].
  apply String.eqb_neq in E1, E2, E3. simpl. intuition.
Qed.


(** X17: when [parse] returns, [raw_text] is, for ".pdf", the texts of the
    pages one after the other with nothing in between, every page having
    been extracted, and for ".doc" and ".docx" alike the paragraphs joined by
    newlines. *)
Theorem parse_raw_text
        (lib : Libraries) (content file_extension : string)
        (d : ResumeParser.ParsedData) :
  ResumeParser.parse lib content file_extension = Return d ->
  (file_extension = ".pdf" /\
   exists texts,
     PdfReader lib content = Return (map Return texts) /\
     ResumeParser.raw_text d = String.concat "" texts) \/
  ((file_extension = ".doc" \/ file_extension = ".docx") /\
   exists paragraphs,
     Document lib content = Return paragraphs /\
     ResumeParser.raw_text d = String.concat (String "010" "") paragraphs).
Proof.
  unfold ResumeParser.parse. intros H.
  destruct (lookup_supported file_extension)
    as [[Hpdf E] | [[Hdoc E] | [Hno E]]]; rewrite E in H.
  - left. split; [ exact Hpdf | ].
    apply and_then_Return_inv in H. destruct H as [text [Ht H]].
    injection H as <-. cbn [ResumeParser._extract_information ResumeParser.raw_text].
    unfold ResumeParser._parse_pdf, try_except in Ht.
    destruct (Lib.and_then (PdfReader lib content) _) as [t|e] eqn:Eb;
      [ | discriminate ].
    injection Ht as ->.
    apply and_then_Return_inv in Eb. destruct Eb as [pages [Hp Hr]].
    apply read_pages_Return in Hr. destruct Hr as [texts [-> ->]].
    exists texts. split; [ exact Hp | reflexivity ].
  - right. split; [ exact Hdoc | ].
    apply and_then_Return_inv in H. destruct H as [text [Ht H]].
    injection H as <-. cbn [ResumeParser._extract_information ResumeParser.raw_text].
    unfold ResumeParser._parse_doc, try_except in Ht.
    destruct (Lib.and_then (Document lib content) _) as [t|e] eqn:Eb;
      [ | discriminate ].
    injection Ht as ->.
    apply and_then_Return_inv in Eb. destruct Eb as [paragraphs [Hp Hr]].
    injection Hr as <-. exists paragraphs. auto.
  - discriminate.
Qed.

(** X17 at a two-page PDF *)
Lemma parse_raw_text_witness :
  ResumeParser.parse
    {| path_suffix := path_suffix sample_libraries;
       PdfReader := fun _ => Return [Return "Python "; Return "Docker"];
       Document := Document sample_libraries;
       nlp := nlp sample_libraries;
       list_of_set := list_of_set sample_libraries;
       str := str sample_libraries |}
    "%PDF" ".pdf"
  = Return (ResumeParser._extract_information "Python Docker") /\
  exists texts,
    Return [Return "Python "; Return "Docker"] = Return (map Return texts) /\
    "Python Docker" = String.concat "" texts.
Proof.
  split; [ reflexivity | ].
  destruct (@parse_raw_text
              {| path_suffix := path_suffix sample_libraries;
                 PdfReader := fun _ => Return [Return "Python "; Return "Docker"];
                 Document := Document sample_libraries;
                 nlp := nlp sample_libraries;
                 list_of_set := list_of_set sample_libraries;
                 str := str sample_libraries |}
              "%PDF" ".pdf" _ eq_refl) as [[_ H] | [[H|H] _]].
  - exact H.
  - discriminate.
  - discriminate.
Defined.

End ParserProperties.

(** ** Further properties: the language processor *)

Section ProcessorProperties.

Lemma add_entity_get (d : list (string * list string)) (k v k' : string) :
  dict_get (NLPProcessor.add_entity d k v) k' []
  = if String.eqb k k' then (dict_get d k' [] ++ [v])%list
    else dict_get d k' [].
Proof.
  induction d as [|[a ts] d IH]; cbn [NLPProcessor.add_entity dict_get].
  - destruct (String.eqb k k'); reflexivity.
  - destruct (String.eqb a k) eqn:Eak; cbn [dict_get].
    + apply String.eqb_eq in Eak. subst a.
      destruct (String.eqb k k'); reflexivity.
    + rewrite IH. destruct (String.eqb a k') eqn:Eak'; [ | reflexivity ].
      apply String.eqb_eq in Eak'. subst a.
      rewrite String.eqb_sym in Eak. now rewrite Eak.
Qed.

Lemma add_entity_keys (d : list (string * list string)) (k v k' : string) :
  In k' (map fst (NLPProcessor.add_entity d k v)) <->
  k' = k \/ In k' (map fst d).
Proof.
  induction d as [|[a ts] d IH]; cbn [NLPProcessor.add_entity map fst In].
  - intuition.
  - destruct (String.eqb a k) eqn:Eak; cbn [map fst In].
    + apply String.eqb_eq in Eak. subst a. intuition.
    + rewrite IH. intuition.
Qed.

Lemma add_entity_NoDup (d : list (string * list string)) (k v : string) :
  NoDup (map fst d) -> NoDup (map fst (NLPProcessor.add_entity d k v)).
Proof.
  induction d as [|[a ts] d IH]; cbn [NLPProcessor.add_entity map fst]; intros H.
  - repeat constructor. intros [].
  - inversion H as [|? ? Ha Hd]; subst.
    destruct (String.eqb a k) eqn:Eak; cbn [map fst].
    + constructor; assumption.
    + constructor; [ | auto ].
      intros Hin. apply add_entity_keys in Hin. destruct Hin as [->|Hin].
      * rewrite String.eqb_refl in Eak. discriminate.
      * contradiction.
Qed.

Lemma texts_labelled_app (label : string) (l l' : list Entity) :
  texts_labelled label (l ++ l')
  = (texts_labelled label l ++ texts_labelled label l')%list.
Proof.
  unfold texts_labelled. now rewrite filter_app, map_app.
Qed.

(** the loop of [_extract_entities], started on the entities [seen] *)
Lemma entities_loop (l seen : list Entity) (d : list (string * list string)) :
  NoDup (map fst d) ->
  (forall label, dict_get d label [] = texts_labelled label seen) ->
  (forall label, In label (map fst d) <-> In label (map label_ seen)) ->
  let d' := fold_left (fun entities ent =>
                         NLPProcessor.add_entity entities (label_ ent)
                                                 (ent_text ent)) l d in
  NoDup (map fst d') /\
  (forall label, dict_get d' label [] = texts_labelled label (seen ++ l)) /\
  (forall label, In label (map fst d') <-> In label (map label_ (seen ++ l))).
Proof.
  revert seen d. induction l as [|e l IH]; intros seen d Hnd Hget Hkeys.
  - cbn [fold_left]. rewrite app_nil_r. auto.
  - cbn [fold_left].
    replace (seen ++ e :: l)%list with ((seen ++ [e]) ++ l)%list
      by (rewrite <- app_assoc; reflexivity).
    apply IH.
    + now apply add_entity_NoDup.
    + intros label. rewrite add_entity_get, texts_labelled_app, Hget.
      assert (Hs : texts_labelled label [e]
                   = if String.eqb (label_ e) label then [ent_text e] else []).
      { unfold texts_labelled. cbn [filter].
        destruct (String.eqb (label_ e) label); reflexivity. }
      rewrite Hs.
      destruct (String.eqb (label_ e) label);
        [ reflexivity | now rewrite app_nil_r ].
    + intros label. rewrite add_entity_keys, map_app, in_app_iff, Hkeys.
      cbn [map In]. intuition.
Qed.

(** X18: [_extract_entities] groups the entities by label.  When spaCy
    returns a document, the result has each label of the document exactly
    once as a key, and under a label the texts of the entities with that
    label, in the order of the document. *)
Theorem entities_grouped_by_label
        (lib : Libraries) (text : string) (doc : Doc) :
  nlp lib text = Return doc ->
  exists d,
    NLPProcessor._extract_entities lib text = Return d /\
    NoDup (map fst d) /\
    (forall label, In label (map fst d) <-> In label (map label_ (ents doc))) /\
    (forall label, dict_get d label [] = texts_labelled label (ents doc)).
Proof.
  intros Hdoc. unfold NLPProcessor._extract_entities. rewrite Hdoc.
  cbn [Lib.and_then]. eexists. split; [ reflexivity | ].
  destruct (@entities_loop (ents doc) [] []) as [H1 [H2 H3]].
  - constructor.
  - reflexivity.
  - reflexivity.
  - cbn [app] in *. auto.
Qed.

(** X18 at the document of [sample_libraries] *)
Lemma entities_grouped_by_label_witness :
  NLPProcessor._extract_entities sample_libraries "text"
  = Return [("ORG", ["ACME"; "Initech"]); ("DATE", ["2020"])] /\
  exists d,
    NLPProcessor._extract_entities sample_libraries "text" = Return d /\
    NoDup (map fst d).
Proof.
  split; [ reflexivity | ].
  destruct (@entities_grouped_by_label sample_libraries "text" _ eq_refl)
    as [d [H1 [H2 _]]].
  exists d. auto.
Defined.

(** X19: [analyze] fails in two cases only: when spaCy fails, with spaCy's
    exception, and when the document has no sentence, with [IndexError]
    (from [sentences[0]]).  Otherwise it returns; the summary is then the
    first sentence followed by at most two of the later sentences that
    mention an organisation, a date or a skill, joined by spaces. *)
Theorem analyze_outcome (lib : Libraries) (parsed_data : ResumeParser.ParsedData) :
  match nlp lib (ResumeParser.raw_text parsed_data) with
  | Throw e => NLPProcessor.analyze lib parsed_data = Throw e
  | Return doc =>
      match sents doc with
      | [] => NLPProcessor.analyze lib parsed_data = Throw IndexError
      | first :: rest =>
          exists a others,
            NLPProcessor.analyze lib parsed_data = Return a /\
            NLPProcessor.summary a
            = String.concat " " (span_text first :: others) /\
            others = firstn 2 (map span_text
                                   (filter NLPProcessor.is_important rest))
      end
  end.
Proof.
  unfold NLPProcessor.analyze, NLPProcessor._extract_skills,
    NLPProcessor._extract_key_phrases, NLPProcessor._extract_entities,
    NLPProcessor._generate_summary.
  destruct (nlp lib (ResumeParser.raw_text parsed_data)) as [doc|e];
    cbn [Lib.and_then]; [ | reflexivity ].
  destruct (sents doc) as [|first rest]; cbn [Lib.and_then];
    [ reflexivity | ].
  eexists. eexists. split; [ reflexivity | ].
  cbn [NLPProcessor.summary firstn]. split; reflexivity.
Qed.

End ProcessorProperties.

(** ** Further properties: the upload endpoint *)

Section EndpointProperties.

Lemma try_except_Return (A : Type) (body : res A) (handler : exc -> res A) (a : A) :
  (forall e, exists e', handler e = Throw e') ->
  try_except body handler = Return a -> body = Return a.
Proof.
  intros Hh. unfold try_except. destruct body as [x|e]; [ auto | ].
  destruct (Hh e) as [e' ->]. discriminate.
Qed.

(** what has happened when the endpoint answers *)
Lemma upload_resume_Return
      (lib : Libraries) (recommender : Recommender) (file : App.UploadFile)
      (data : App.ResponseData) :
  App.upload_resume lib recommender file = Return data ->
  exists content parsed_data,
    str_in (lower (path_suffix lib (App.filename file))) App.allowed_extensions
    = true /\
    App.read file = Return content /\
    ResumeParser.parse lib content (lower (path_suffix lib (App.filename file)))
    = Return parsed_data /\
    NLPProcessor.analyze lib parsed_data = Return (App.parsed_info data) /\
    get_recommendations
      recommender (NLPProcessor.as_analyzed_data (App.parsed_info data))
    = Ok (App.recommendations data).
Proof.
  unfold App.upload_resume. intros H.
  apply try_except_Return in H; [ | intros e; eauto ].
  destruct (str_in (lower (path_suffix lib (App.filename file)))
                   App.allowed_extensions) eqn:Eext;
    cbn [negb] in H; [ | discriminate ].
  apply and_then_Return_inv in H. destruct H as [content [Hread H]].
  apply and_then_Return_inv in H. destruct H as [parsed_data [Hparse H]].
  apply and_then_Return_inv in H. destruct H as [analyzed [Han H]].
  apply and_then_Return_inv in H. destruct H as [recs [Hrec H]].
  injection H as <-. cbn [App.parsed_info App.recommendations].
  exists content, parsed_data. repeat split; auto.
  unfold App.of_recommender in Hrec.
  destruct (get_recommendations recommender _) as [r|e];
    [ now injection Hrec as -> | discriminate ].
Qed.



(** X21: the endpoint and the parser accept the same extensions, so a file
    that passes the endpoint's test never meets the parser's "Unsupported
    file format": [parse] is then handed ".pdf", ".doc" or ".docx", and if it
    raises it is with a wrapped library error. *)
Theorem accepted_extension_is_supported
        (lib : Libraries) (content file_extension : string) :
  (str_in file_extension App.allowed_extensions = true <->
   ResumeParser.lookup ResumeParser.supported_formats file_extension <> None) /\
  (str_in file_extension App.allowed_extensions = true ->
   forall msg,
     ResumeParser.parse lib content file_extension = Throw (ValueError msg) ->
     exists e,
       msg = ("Error parsing PDF: " ++ str lib e)%string \/
       msg = ("Error parsing DOC/DOCX: " ++ str lib e)%string).
Proof.
  assert (Hiff : str_in file_extension App.allowed_extensions = true <->
                 In file_extension [".pdf"; ".doc"; ".docx"])
    by apply str_in_In.
  split.
  - rewrite Hiff.
    destruct (lookup_supported file_extension)
      as [[Hpdf E] | [[Hdoc E] | [Hno E]]]; rewrite E.
    + split; [ discriminate | intros _; subst; simpl; auto ].
    + split; [ discriminate | intros _; destruct Hdoc; subst; simpl; auto ].
    + split; [ contradiction | congruence ].
  - intros Hok msg. apply Hiff in Hok. unfold ResumeParser.parse.
    destruct (lookup_supported file_extension)
      as [[Hpdf E] | [[Hdoc E] | [Hno E]]]; rewrite E; [ | | contradiction ].
    + unfold ResumeParser._parse_pdf, try_except.
      destruct (Lib.and_then (PdfReader lib content) _) as [t|e];
        cbn [Lib.and_then]; intros H; [ discriminate | ].
      injection H as <-. exists e. left. reflexivity.
    + unfold ResumeParser._parse_doc, try_except.
      destruct (Lib.and_then (Document lib content) _) as [t|e];
        cbn [Lib.and_then]; intros H; [ discriminate | ].
      injection H as <-. exists e. right. reflexivity.
Qed.

(** X21 at the extension ".docx" *)
Lemma accepted_extension_is_supported_witness :
  str_in ".docx" App.allowed_extensions = true /\
  ResumeParser.lookup ResumeParser.supported_formats ".docx" <> None.
Proof.
  split; [ reflexivity | ].
  apply (proj1 (accepted_extension_is_supported sample_libraries "" ".docx")).
  reflexivity.
Defined.

Lemma init_match_is_cluster (skill_list : list string) :
  exists name,
    _get_industry_match init skill_list = Ok (Some name) /\
    In name ["web_development"; "data_science"; "cloud_devops"].
Proof.
  rewrite init_industry_match. eexists. split; [ reflexivity | ].
  match goal with
  | |- In (fst (max_from ?k ?b ?l)) _ =>
      destruct (max_from_In k l b) as [<-|[<-|[<-|[]]]]
  end; simpl; auto.
Qed.

(** X22: what a successful upload carries, with the recommender of
    [__init__].  The recommendations are those of [get_recommendations] on
    the extracted skills with no experience level and no industry preference
    (the analysis has neither key); so the matched industry is always one of
    the three clusters, and [experience_match] is false on every course. *)
Theorem upload_resume_recommendations
        (lib : Libraries) (file : App.UploadFile) (data : App.ResponseData) :
  App.upload_resume lib init file = Return data ->
  get_recommendations
    init (profile (NLPProcessor.skills (App.parsed_info data)) None None)
  = Ok (App.recommendations data) /\
  (exists name,
      matched_industry (App.recommendations data) = Some name /\
      In name ["web_development"; "data_science"; "cloud_devops"]) /\
  Forall (fun rec => experience_match rec = false)
         (course_recommendations (App.recommendations data)).
Proof.
  intros H. apply upload_resume_Return in H.
  destruct H as [content [parsed_data [_ [_ [_ [_ Hr]]]]]].
  change (NLPProcessor.as_analyzed_data (App.parsed_info data))
    with (profile (NLPProcessor.skills (App.parsed_info data)) None None) in Hr.
  split; [ exact Hr | ]. split.
  - destruct (get_recommendations_inv _ _ Hr) as [Hi _].
    change (industry_step
              init (profile (NLPProcessor.skills (App.parsed_info data))
                            None None))
      with (_get_industry_match
              init (NLPProcessor.skills (App.parsed_info data))) in Hi.
    destruct (init_match_is_cluster
                (NLPProcessor.skills (App.parsed_info data)))
      as [name [Hm Hin]].
    exists name. split; [ congruence | exact Hin ].
  - apply (experience_match_false _ Hr). simpl. intuition discriminate.
Qed.

(** X22 at [sample_file] *)
Lemma upload_resume_recommendations_witness :
  exists data,
    App.upload_resume sample_libraries init sample_file = Return data /\
    NLPProcessor.skills (App.parsed_info data) = ["Docker"; "Python"] /\
    Forall (fun rec => experience_match rec = false)
           (course_recommendations (App.recommendations data)).
Proof.
  destruct (init_total (profile ["Docker"; "Python"] None None)) as [r Hr].
  assert (H : App.upload_resume sample_libraries init sample_file
              = Return {| App.parsed_info :=
                            {| NLPProcessor.skills := ["Docker"; "Python"];
                               NLPProcessor.key_phrases := [];
                               NLPProcessor.entities :=
                                 [("ORG", ["ACME"; "Initech"]);
                                  ("DATE", ["2020"])];
                               NLPProcessor.summary := "Python and Docker." |};
                          App.recommendations := r |}).
  { unfold App.upload_resume, sample_file.
    cbn [App.filename App.read sample_libraries path_suffix].
    change (negb (str_in (lower ".PDF") App.allowed_extensions)) with false.
    cbv iota. cbn [Lib.and_then].
    change (ResumeParser.parse sample_libraries "Python and Docker."
                               (lower ".PDF"))
      with (Return (ResumeParser._extract_information "Python and Docker.")).
    cbn [Lib.and_then].
    change (NLPProcessor.analyze
              sample_libraries
              (ResumeParser._extract_information "Python and Docker."))
      with (Return {| NLPProcessor.skills := ["Docker"; "Python"];
                      NLPProcessor.key_phrases := [];
                      NLPProcessor.entities :=
                        [("ORG", ["ACME"; "Initech"]); ("DATE", ["2020"])];
                      NLPProcessor.summary := "Python and Docker." |}).
    cbn [Lib.and_then].
    change (NLPProcessor.as_analyzed_data _)
      with (profile ["Docker"; "Python"] None None).
    rewrite Hr. reflexivity. }
  eexists. split; [ exact H | ].
  split; [ reflexivity | ].
  exact (proj2 (proj2 (upload_resume_recommendations _ _ H))).
Defined.

Lemma parse_agrees (lib1 lib2 : Libraries) (content file_extension : string)
      (d : ResumeParser.ParsedData) :
  PdfReader lib1 = PdfReader lib2 ->
  Document lib1 = Document lib2 ->
  ResumeParser.parse lib1 content file_extension = Return d ->
  ResumeParser.parse lib2 content file_extension = Return d.
Proof.
  intros Hpdf Hdoc. unfold ResumeParser.parse.
  destruct (ResumeParser.lookup ResumeParser.supported_formats file_extension)
    as [parser_func|] eqn:E; [ | discriminate ].
  assert (Hf : forall t, parser_func lib1 content = Return t ->
                         parser_func lib2 content = Return t).
  { destruct (lookup_supported file_extension)
      as [[_ E'] | [[_ E'] | [_ E']]]; rewrite E' in E;
      [ | | discriminate ]; injection E as <-; intros t.
    - unfold ResumeParser._parse_pdf, try_except. rewrite Hpdf.
      destruct (Lib.and_then (PdfReader lib2 content) _);
        [ auto | discriminate ].
    - unfold ResumeParser._parse_doc, try_except. rewrite Hdoc.
      destruct (Lib.and_then (Document lib2 content) _);
        [ auto | discriminate ]. }
  intros H. apply and_then_Return_inv in H. destruct H as [t [Ht H]].
  rewrite (Hf t Ht). exact H.
Qed.

Lemma analyze_skills (lib : Libraries) (parsed_data : ResumeParser.ParsedData)
      (a : NLPProcessor.Analysis) :
  NLPProcessor.analyze lib parsed_data = Return a ->
  exists doc,
    nlp lib (ResumeParser.raw_text parsed_data) = Return doc /\
    NLPProcessor.skills a
    = list_of_set lib
        (map span_text
             (filter (fun chunk => negb (existsb is_stop (span_tokens chunk)))
                     (noun_chunks doc))).
Proof.
  unfold NLPProcessor.analyze, NLPProcessor._extract_skills,
    NLPProcessor._extract_key_phrases, NLPProcessor._extract_entities,
    NLPProcessor._generate_summary.
  destruct (nlp lib (ResumeParser.raw_text parsed_data)) as [doc|e];
    cbn [Lib.and_then]; [ | discriminate ].
  destruct (sents doc) as [|first rest]; cbn [Lib.and_then];
    [ discriminate | ].
  intros H. injection H as <-. exists doc. auto.
Qed.

(** X23: what is recommended does not depend on the order in which the
    interpreter iterates the set of extracted skills.  Two runs on the same
    file with the catalogs of [__init__] that differ only in that order
    return skill lists that are permutations of each other, the same matched
    industry, the same jobs with the same alignment, and the same courses
    with the same missing skills, skill importance and experience match;
    scores and the order of the entries are left out. *)
Theorem set_order_irrelevant
        (lib1 lib2 : Libraries)
        (file : App.UploadFile) (d1 d2 : App.ResponseData) :
  path_suffix lib1 = path_suffix lib2 ->
  PdfReader lib1 = PdfReader lib2 ->
  Document lib1 = Document lib2 ->
  nlp lib1 = nlp lib2 ->
  set_order_ok (list_of_set lib1) ->
  set_order_ok (list_of_set lib2) ->
  App.upload_resume lib1 init file = Return d1 ->
  App.upload_resume lib2 init file = Return d2 ->
  Permutation (NLPProcessor.skills (App.parsed_info d1))
              (NLPProcessor.skills (App.parsed_info d2)) /\
  matched_industry (App.recommendations d1)
  = matched_industry (App.recommendations d2) /\
  Permutation
    (map job_outline (job_recommendations (App.recommendations d1)))
    (map job_outline (job_recommendations (App.recommendations d2))) /\
  Permutation
    (map course_outline (course_recommendations (App.recommendations d1)))
    (map course_outline (course_recommendations (App.recommendations d2))).
Proof.
  intros Hsuf Hpdf Hdoc Hnlp Hset1 Hset2 H1 H2.
  apply upload_resume_Return in H1.
  destruct H1 as [c1 [p1 [_ [Hread1 [Hparse1 [Han1 Hr1]]]]]].
  apply upload_resume_Return in H2.
  destruct H2 as [c2 [p2 [_ [Hread2 [Hparse2 [Han2 Hr2]]]]]].
  rewrite Hread1 in Hread2. injection Hread2 as <-.
  rewrite Hsuf in Hparse1.
  apply (parse_agrees lib1 lib2 _ _ Hpdf Hdoc) in Hparse1.
  rewrite Hparse1 in Hparse2. injection Hparse2 as <-.
  apply analyze_skills in Han1. destruct Han1 as [doc1 [Hd1 Hs1]].
  apply analyze_skills in Han2. destruct Han2 as [doc2 [Hd2 Hs2]].
  rewrite Hnlp, Hd2 in Hd1. injection Hd1 as <-.
  assert (Hperm : Permutation (NLPProcessor.skills (App.parsed_info d1))
                              (NLPProcessor.skills (App.parsed_info d2))).
  { rewrite Hs1, Hs2.
    apply NoDup_Permutation; [ apply Hset1 | apply Hset2 | ].
    intros x. rewrite (proj2 (Hset1 _) x), (proj2 (Hset2 _) x). reflexivity. }
  split; [ exact Hperm | ].
  change (NLPProcessor.as_analyzed_data (App.parsed_info d1))
    with (profile (NLPProcessor.skills (App.parsed_info d1)) None None) in Hr1.
  change (NLPProcessor.as_analyzed_data (App.parsed_info d2))
    with (profile (NLPProcessor.skills (App.parsed_info d2)) None None) in Hr2.
  rewrite (get_recommendations_perm init None None Hperm) in Hr1.
  rewrite Hr1 in Hr2. apply Ok_inj in Hr2. rewrite Hr2.
  split; [ reflexivity | ].
  split; apply Permutation_refl.
Qed.

Lemma nodup_set_order : set_order_ok (nodup string_dec).
Proof.
  intros l. split; [ apply NoDup_nodup | intros x; apply nodup_In ].
Qed.

Lemma rev_nodup_set_order : set_order_ok (fun l => rev (nodup string_dec l)).
Proof.
  intros l. split.
  - apply NoDup_rev, NoDup_nodup.
  - intros x. rewrite <- in_rev. apply nodup_In.
Qed.

Lemma sample_upload (lib : Libraries) (extracted : list string) :
  path_suffix lib = path_suffix sample_libraries ->
  PdfReader lib = PdfReader sample_libraries ->
  nlp lib = nlp sample_libraries ->
  list_of_set lib ["Python"; "Docker"; "Python"] = extracted ->
  exists data,
    App.upload_resume lib init sample_file = Return data /\
    NLPProcessor.skills (App.parsed_info data) = extracted.
Proof.
  intros Hsuf Hpdf Hnlp Hset.
  destruct (init_total (profile extracted None None)) as [r Hr].
  exists {| App.parsed_info :=
              {| NLPProcessor.skills := extracted;
                 NLPProcessor.key_phrases := [];
                 NLPProcessor.entities :=
                   [("ORG", ["ACME"; "Initech"]); ("DATE", ["2020"])];
                 NLPProcessor.summary := "Python and Docker." |};
            App.recommendations := r |}.
  split; [ | reflexivity ].
  unfold App.upload_resume, sample_file. cbn [App.filename App.read].
  rewrite Hsuf. cbn [sample_libraries path_suffix].
  change (negb (str_in (lower ".PDF") App.allowed_extensions)) with false.
  cbv iota. cbn [Lib.and_then].
  assert (Hp : ResumeParser.parse lib "Python and Docker." (lower ".PDF")
               = Return (ResumeParser._extract_information
                           "Python and Docker.")).
  { change (lower ".PDF") with ".pdf". unfold ResumeParser.parse.
    cbn [ResumeParser.lookup ResumeParser.supported_formats String.eqb
         Ascii.eqb Bool.eqb].
    unfold ResumeParser._parse_pdf. rewrite Hpdf. reflexivity. }
  rewrite Hp. cbn [Lib.and_then].
  assert (Ha : NLPProcessor.analyze
                 lib (ResumeParser._extract_information "Python and Docker.")
               = Return {| NLPProcessor.skills := extracted;
                           NLPProcessor.key_phrases := [];
                           NLPProcessor.entities :=
                             [("ORG", ["ACME"; "Initech"]); ("DATE", ["2020"])];
                           NLPProcessor.summary := "Python and Docker." |}).
  { unfold NLPProcessor.analyze, NLPProcessor._extract_skills,
      NLPProcessor._extract_key_phrases, NLPProcessor._extract_entities,
      NLPProcessor._generate_summary.
    rewrite Hnlp. cbn. rewrite Hset. reflexivity. }
  rewrite Ha. cbn [Lib.and_then].
  change (NLPProcessor.as_analyzed_data _)
    with (profile extracted None None).
  rewrite Hr. reflexivity.
Qed.

(** X23 at [sample_file], the set iterated one way and the other *)
Lemma set_order_irrelevant_witness :
  exists d1 d2,
    App.upload_resume sample_libraries init sample_file = Return d1 /\
    App.upload_resume sample_libraries_reversed init sample_file = Return d2 /\
    NLPProcessor.skills (App.parsed_info d1) = ["Docker"; "Python"] /\
    NLPProcessor.skills (App.parsed_info d2) = ["Python"; "Docker"] /\
    matched_industry (App.recommendations d1)
    = matched_industry (App.recommendations d2) /\
    Permutation
      (map job_outline (job_recommendations (App.recommendations d1)))
      (map job_outline (job_recommendations (App.recommendations d2))) /\
    Permutation
      (map course_outline (course_recommendations (App.recommendations d1)))
      (map course_outline (course_recommendations (App.recommendations d2))).
Proof.
  destruct (@sample_upload sample_libraries ["Docker"; "Python"]
              eq_refl eq_refl eq_refl eq_refl) as [d1 [H1 S1]].
  destruct (@sample_upload sample_libraries_reversed ["Python"; "Docker"]
              eq_refl eq_refl eq_refl eq_refl) as [d2 [H2 S2]].
  exists d1, d2.
  split; [ exact H1 | ].
  split; [ exact H2 | ].
  split; [ exact S1 | ].
  split; [ exact S2 | ].
  exact (proj2 (@set_order_irrelevant
                  sample_libraries sample_libraries_reversed sample_file
                  d1 d2 eq_refl eq_refl eq_refl eq_refl
                  nodup_set_order rev_nodup_set_order H1 H2)).
Defined.

End EndpointProperties.
